(** * Gold analysis bot: indicator engine, pattern detector, signal synthesizer

    A shallow embedding of the analytic core of [api/bot.js]
    ([TechnicalAnalysis], [PatternRecognition], the indicator refresh inside
    [fetchGoldData] and [generateSignal]) together with the properties the
    specification states about it.

    Number model.  A JavaScript number is modelled as a real number: the
    arithmetic of the source ([+], [-], [*], [/], [Math.abs], [Math.pow],
    [Math.sqrt], the comparisons) is taken exactly, without rounding and
    without overflow, on finite inputs.  [null] and [undefined] are [None].
    A period is a natural number; every statement about a computed value
    assumes [1 <= period], the only case in which the quotient by the period
    is a finite number in the source.  The one quotient whose divisor can be
    zero on finite data with such a period ([priceDiff / avgPrice] in the
    pattern detector) is modelled with its zero case written out.
    Integer-valued scores (confidence) are integers. *)

From Stdlib Require Import String Ascii DecimalString.
From Stdlib Require Import Reals Lra Lia ZArith Bool List Sorted.
Import ListNotations.

Open Scope R_scope.

(** ** JavaScript primitives used by the source *)

(** [x < y] and [x === 0] on numbers, as booleans. *)
Definition Rltb (x y : R) : bool := if Rlt_dec x y then true else false.
Definition Rgtb (x y : R) : bool := Rltb y x.
Definition is_zero (x : R) : bool := if Req_dec_T x 0 then true else false.

(** Truthiness of a nullable number: [null], [undefined] and [0] are falsy. *)
Definition truthy (v : option R) : bool :=
  match v with
  | Some x => negb (is_zero x)
  | None => false
  end.

(** The number of a natural (array lengths, periods). *)
Definition num (n : nat) : R := IZR (Z.of_nat n).

(** [l.slice(-n)]: the last [n] elements, the whole array when it is shorter;
    [l.slice(-0)] is [l.slice(0)], the whole array. *)
Definition slice_last {A : Type} (n : nat) (l : list A) : list A :=
  match n with
  | O => l
  | S _ => skipn (length l - n) l
  end.

(** [s.includes(needle)] on strings. *)
Fixpoint includes (needle s : string) : bool :=
  if prefix needle s then true
  else match s with
       | EmptyString => false
       | String _ rest => includes needle rest
       end.

(** [x.toFixed(1)]: with [n] the integer nearest to [10 * |x|] (the larger one
    on a tie), the digits of [n / 10], a point, and the digit [n mod 10]; a
    minus sign in front when [x < 0].  (From 1e21 on the source switches to
    exponent notation; the oscillator never gets there.) *)
Definition digits (n : Z) : string :=
  NilZero.string_of_uint (N.to_uint (Z.to_N n)).

Definition toFixed1 (x : R) : string :=
  let n := Int_part (10 * Rabs x + 1 / 2) in
  let body := (digits (n / 10) ++ "." ++ digits (n mod 10))%string in
  if Rltb x 0 then ("-" ++ body)%string else body.

(** ** Data model *)

(** One price bar as [fetchGoldData] builds it (after the null-close filter);
    [time] is the timestamp in milliseconds. *)
Record Candle := mkCandle {
  time : R;
  open : R;
  high : R;
  low : R;
  close : R;
  volume : R
}.

(** [data[i]]: the loops of the source only index inside the array. *)
Definition nullCandle : Candle := mkCandle 0 0 0 0 0 0.
Definition at_index (data : list Candle) (i : nat) : Candle := nth i data nullCandle.

(** [l.reduce((sum, item) => sum + item.close, 0)] *)
Definition sum_close (l : list Candle) : R :=
  fold_left (fun sum item => sum + close item) l 0.

(** The volatility-band object. *)
Record Bands := mkBands {
  upper : R;
  middle : R;
  lower : R;
  width : R
}.

(** ** class TechnicalAnalysis *)

Module TechnicalAnalysis.

Definition calculateSMA (data : list Candle) (period : nat) : option R :=
  if (length data <? period)%nat then None
  else
    let slice := slice_last period data in
    Some (sum_close slice / num period).

Definition calculateEMA (data : list Candle) (period : nat) : option R :=
  if (length data <? period)%nat then None
  else
    let multiplier := 2 / (num period + 1) in
    let ema := sum_close (firstn period data) / num period in
    Some (fold_left
            (fun ema item => close item * multiplier + ema * (1 - multiplier))
            (skipn period data) ema).

(** One turn of the loop of [calculateRSI], on the pair (gains, losses). *)
Definition rsi_step (data : list Candle) (acc : R * R) (i : nat) : R * R :=
  let '(gains, losses) := acc in
  let change := close (at_index data (length data - i))
                - close (at_index data (length data - i - 1)) in
  if Rgtb change 0 then (gains + change, losses)
  else (gains, losses + Rabs change).

(** [for (let i = 1; i <= period; i++)] from [gains = 0, losses = 0]. *)
Definition rsi_sums (data : list Candle) (period : nat) : R * R :=
  fold_left (rsi_step data) (seq 1 period) (0, 0).

Definition calculateRSI (data : list Candle) (period : nat) : option R :=
  if (length data <? period + 1)%nat then None
  else
    let '(gains, losses) := rsi_sums data period in
    let avgGain := gains / num period in
    let avgLoss := losses / num period in
    if is_zero avgLoss then Some 100
    else
      let rs := avgGain / avgLoss in
      Some (100 - 100 / (1 + rs)).

Definition calculateBollingerBands
    (data : list Candle) (period : nat) (multiplier : R) : option Bands :=
  if (length data <? period)%nat then None
  else
    match calculateSMA data period with
    | None => None
    | Some sma =>
        if is_zero sma then None
        else
          let slice := slice_last period data in
          let variance :=
            fold_left (fun sum item => sum + (close item - sma) ^ 2) slice 0
            / num period in
          let stdDev := sqrt variance in
          Some {| upper := sma + stdDev * multiplier;
                  middle := sma;
                  lower := sma - stdDev * multiplier;
                  width := (stdDev * multiplier * 2) / sma * 100 |}
    end.

(** The default arguments of the source. *)
Definition rsiPeriod : nat := 14.
Definition bbPeriod : nat := 20.
Definition bbMultiplier : R := 2.

End TechnicalAnalysis.

(** ** class PatternRecognition *)

(** A detected reversal shape; a double top carries [resistance], a double
    bottom [support], the other property is missing from the object. *)
Module Pattern.
Record t := mk {
  type : string;
  confidence : Z;
  description : string;
  resistance : option R;
  support : option R
}.
End Pattern.

(** A local high or low: [{ index: i, price: ... }]. *)
Record Extremum := mkExtremum {
  index : nat;
  price : R
}.

Definition nullExtremum : Extremum := mkExtremum 0 0.

(** [x / y < c] for [x >= 0].  On a zero divisor the quotient of the source is
    [NaN] or [+Infinity], and the comparison is false. *)
Definition div_ltb (x y c : R) : bool :=
  if is_zero y then false else Rltb (x / y) c.

Module PatternRecognition.

(** One turn of the scanning loop, on the pair of arrays (highs, lows). *)
Definition scan_step (data : list Candle)
    (acc : list Extremum * list Extremum) (i : nat)
    : list Extremum * list Extremum :=
  let '(highs, lows) := acc in
  let highs :=
    if Rgtb (high (at_index data i)) (high (at_index data (i - 1)))
       && Rgtb (high (at_index data i)) (high (at_index data (i + 1)))
    then highs ++ [mkExtremum i (high (at_index data i))]
    else highs in
  let lows :=
    if Rltb (low (at_index data i)) (low (at_index data (i - 1)))
       && Rltb (low (at_index data i)) (low (at_index data (i + 1)))
    then lows ++ [mkExtremum i (low (at_index data i))]
    else lows in
  (highs, lows).

(** [for (let i = 1; i < data.length - 1; i++)] from two empty arrays. *)
Definition scan (data : list Candle) : list Extremum * list Extremum :=
  fold_left (scan_step data) (seq 1 (length data - 2)) ([], []).

Definition doubleTop (avgPrice : R) : Pattern.t :=
  {| Pattern.type := "DOUBLE_TOP";
     Pattern.confidence := 75;
     Pattern.description := "Potential reversal - Consider SELL";
     Pattern.resistance := Some avgPrice;
     Pattern.support := None |}.

Definition doubleBottom (avgPrice : R) : Pattern.t :=
  {| Pattern.type := "DOUBLE_BOTTOM";
     Pattern.confidence := 75;
     Pattern.description := "Potential reversal - Consider BUY";
     Pattern.resistance := None;
     Pattern.support := Some avgPrice |}.

Definition detectDoubleTopBottom (data : list Candle) : list Pattern.t :=
  let patterns : list Pattern.t := [] in
  let '(highs, lows) := scan data in
  (* double tops *)
  let patterns :=
    if (2 <=? length highs)%nat then
      let lastTwo := slice_last 2 highs in
      let priceDiff := Rabs (price (nth 0 lastTwo nullExtremum)
                             - price (nth 1 lastTwo nullExtremum)) in
      let avgPrice := (price (nth 0 lastTwo nullExtremum)
                       + price (nth 1 lastTwo nullExtremum)) / 2 in
      if div_ltb priceDiff avgPrice 0.01
      then patterns ++ [doubleTop avgPrice]
      else patterns
    else patterns in
  (* double bottoms *)
  let patterns :=
    if (2 <=? length lows)%nat then
      let lastTwo := slice_last 2 lows in
      let priceDiff := Rabs (price (nth 0 lastTwo nullExtremum)
                             - price (nth 1 lastTwo nullExtremum)) in
      let avgPrice := (price (nth 0 lastTwo nullExtremum)
                       + price (nth 1 lastTwo nullExtremum)) / 2 in
      if div_ltb priceDiff avgPrice 0.01
      then patterns ++ [doubleBottom avgPrice]
      else patterns
    else patterns in
  patterns.

Definition detectPatterns (data : list Candle) : list Pattern.t :=
  if (length data <? 20)%nat then []
  else
    let patterns : list Pattern.t := [] in
    let recent := slice_last 20 data in
    patterns ++ detectDoubleTopBottom recent.

End PatternRecognition.

(** ** The market-data cache and its refresh *)

(** [marketDataCache.indicators]: every property may be missing or [null]. *)
Record Indicators := mkIndicators {
  sma20 : option R;
  sma50 : option R;
  ema12 : option R;
  rsi : option R;
  bollinger : option Bands
}.

Module Cache.
Record t := mk {
  prices : list Candle;
  indicators : Indicators;
  patterns : list Pattern.t;
  lastUpdate : option R;
  source : option string
}.
End Cache.

(** The cache the module starts with. *)
Definition marketDataCache : Cache.t :=
  {| Cache.prices := [];
     Cache.indicators := mkIndicators None None None None None;
     Cache.patterns := [];
     Cache.lastUpdate := None;
     Cache.source := None |}.

(** [fetchGoldData] after a successful response: [formattedData] is the list
    of candles with a close, [now] the clock; the result is the new cache. *)
Definition fetchGoldData (now : R) (formattedData : list Candle)
    (cache : Cache.t) : Cache.t :=
  let prices := slice_last 100 formattedData in
  let data := prices in
  if (20 <=? length data)%nat then
    {| Cache.prices := prices;
       Cache.indicators :=
         {| sma20 := TechnicalAnalysis.calculateSMA data 20;
            sma50 := TechnicalAnalysis.calculateSMA data 50;
            ema12 := TechnicalAnalysis.calculateEMA data 12;
            rsi := TechnicalAnalysis.calculateRSI data 14;
            bollinger :=
              TechnicalAnalysis.calculateBollingerBands data
                TechnicalAnalysis.bbPeriod TechnicalAnalysis.bbMultiplier |};
       Cache.patterns := PatternRecognition.detectPatterns data;
       Cache.lastUpdate := Some now;
       Cache.source := Some "Yahoo Finance"%string |}
  else
    {| Cache.prices := prices;
       Cache.indicators := Cache.indicators cache;
       Cache.patterns := Cache.patterns cache;
       Cache.lastUpdate := Some now;
       Cache.source := Some "Yahoo Finance"%string |}.

(** ** generateSignal *)

(** The object [generateSignal] returns; the early return has only [signal]
    and [confidence]. *)
Module Signal.
Record t := mk {
  signal : string;
  confidence : Z;
  reasons : option (list string);
  price : option R;
  indicators : option Indicators;
  patterns : option (list Pattern.t)
}.
End Signal.

(** The three local variables the rule chain updates. *)
Module Acc.
Record t := mk {
  signal : string;
  confidence : Z;
  reasons : list string
}.
End Acc.

(** RSI Analysis *)
Definition rsiAnalysis (rsi : R) (st : Acc.t) : Acc.t :=
  if Rltb rsi 25 then
    {| Acc.signal := "STRONG_BUY";
       Acc.confidence := Acc.confidence st + 40;
       Acc.reasons :=
         Acc.reasons st ++ [("RSI oversold (" ++ toFixed1 rsi ++ ")")%string] |}
  else if Rltb rsi 35 then
    {| Acc.signal := "BUY";
       Acc.confidence := Acc.confidence st + 25;
       Acc.reasons :=
         Acc.reasons st ++ [("RSI low (" ++ toFixed1 rsi ++ ")")%string] |}
  else if Rgtb rsi 75 then
    {| Acc.signal := "STRONG_SELL";
       Acc.confidence := Acc.confidence st + 40;
       Acc.reasons :=
         Acc.reasons st ++ [("RSI overbought (" ++ toFixed1 rsi ++ ")")%string] |}
  else if Rgtb rsi 65 then
    {| Acc.signal := "SELL";
       Acc.confidence := Acc.confidence st + 25;
       Acc.reasons :=
         Acc.reasons st ++ [("RSI high (" ++ toFixed1 rsi ++ ")")%string] |}
  else st.

(** Moving Average Analysis *)
Definition movingAverageAnalysis (sma20 sma50 : option R) (currentPrice : R)
    (st : Acc.t) : Acc.t :=
  if truthy sma20 && truthy sma50 then
    match sma20, sma50 with
    | Some sma20, Some sma50 =>
        if Rgtb currentPrice sma20 && Rgtb sma20 sma50
           && includes "BUY" (Acc.signal st)
        then {| Acc.signal := Acc.signal st;
                Acc.confidence := Acc.confidence st + 15;
                Acc.reasons := Acc.reasons st ++ ["Bullish MA trend"%string] |}
        else if Rltb currentPrice sma20 && Rltb sma20 sma50
                && includes "SELL" (Acc.signal st)
        then {| Acc.signal := Acc.signal st;
                Acc.confidence := Acc.confidence st + 15;
                Acc.reasons := Acc.reasons st ++ ["Bearish MA trend"%string] |}
        else st
    | _, _ => st
    end
  else st.

(** Bollinger Bands *)
Definition bollingerAnalysis (bollinger : option Bands) (currentPrice : R)
    (st : Acc.t) : Acc.t :=
  match bollinger with
  | Some bollinger =>
      if Rltb currentPrice (lower bollinger) && includes "BUY" (Acc.signal st)
      then {| Acc.signal := Acc.signal st;
              Acc.confidence := Acc.confidence st + 15;
              Acc.reasons := Acc.reasons st ++ ["Below lower Bollinger"%string] |}
      else if Rgtb currentPrice (upper bollinger)
              && includes "SELL" (Acc.signal st)
      then {| Acc.signal := Acc.signal st;
              Acc.confidence := Acc.confidence st + 15;
              Acc.reasons := Acc.reasons st ++ ["Above upper Bollinger"%string] |}
      else st
  | None => st
  end.

Definition noData : Signal.t :=
  {| Signal.signal := "NO_DATA";
     Signal.confidence := 0;
     Signal.reasons := None;
     Signal.price := None;
     Signal.indicators := None;
     Signal.patterns := None |}.

Definition generateSignal (cache : Cache.t) : Signal.t :=
  if negb (truthy (rsi (Cache.indicators cache)))
     || (length (Cache.prices cache) =? 0)%nat
  then noData
  else
    match rsi (Cache.indicators cache) with
    | None => noData (* not reached: a truthy oscillator is a number *)
    | Some rsi =>
        let bollinger := bollinger (Cache.indicators cache) in
        let sma20 := sma20 (Cache.indicators cache) in
        let sma50 := sma50 (Cache.indicators cache) in
        let currentPrice :=
          close (at_index (Cache.prices cache)
                          (length (Cache.prices cache) - 1)) in
        let patterns := Cache.patterns cache in
        let st := {| Acc.signal := "HOLD";
                     Acc.confidence := 0;
                     Acc.reasons := [] |} in
        let st := rsiAnalysis rsi st in
        let st := movingAverageAnalysis sma20 sma50 currentPrice st in
        let st := bollingerAnalysis bollinger currentPrice st in
        {| Signal.signal := Acc.signal st;
           Signal.confidence := Z.min (Acc.confidence st) 95;
           Signal.reasons := Some (Acc.reasons st);
           Signal.price := Some currentPrice;
           Signal.indicators := Some (Cache.indicators cache);
           Signal.patterns := Some (firstn 3 patterns) |}
    end.

(** ** The specification's notions

    Definitions that follow the words of the specification, to state the
    properties with; the lemmas below relate them to the code. *)

(** The close-to-close changes of the last [period] transitions (most recent
    first), the gain and the loss of a change, and the sum of a list. *)
Definition changes (data : list Candle) (period : nat) : list R :=
  map (fun i => close (at_index data (length data - i))
                - close (at_index data (length data - i - 1)))
      (seq 1 period).

Definition upward (change : R) : R := Rmax change 0.
Definition downward (change : R) : R := Rmax (- change) 0.
Definition total (l : list R) : R := fold_right Rplus 0 l.

(** Local highs and lows in the words of the specification: an interior
    candle whose high is strictly above (whose low is strictly below) that of
    both neighbours, listed oldest first. *)
Definition is_local_high (data : list Candle) (i : nat) : bool :=
  Rgtb (high (at_index data i)) (high (at_index data (i - 1)))
  && Rgtb (high (at_index data i)) (high (at_index data (i + 1))).

Definition is_local_low (data : list Candle) (i : nat) : bool :=
  Rltb (low (at_index data i)) (low (at_index data (i - 1)))
  && Rltb (low (at_index data i)) (low (at_index data (i + 1))).

Definition interior (data : list Candle) : list nat := seq 1 (length data - 2).

Definition localHighs (data : list Candle) : list Extremum :=
  map (fun i => mkExtremum i (high (at_index data i)))
      (filter (is_local_high data) (interior data)).

Definition localLows (data : list Candle) : list Extremum :=
  map (fun i => mkExtremum i (low (at_index data i)))
      (filter (is_local_low data) (interior data)).

(** Absolute difference divided by the average. *)
Definition relDiff (a b : R) : R := Rabs (a - b) / ((a + b) / 2).

(** What one of the two checks of [detectDoubleTopBottom] pushes. *)
Definition emitted (make : R -> Pattern.t) (ext : list Extremum)
    : list Pattern.t :=
  if (2 <=? length ext)%nat then
    let lastTwo := slice_last 2 ext in
    let priceDiff := Rabs (price (nth 0 lastTwo nullExtremum)
                           - price (nth 1 lastTwo nullExtremum)) in
    let avgPrice := (price (nth 0 lastTwo nullExtremum)
                     + price (nth 1 lastTwo nullExtremum)) / 2 in
    if div_ltb priceDiff avgPrice 0.01 then [make avgPrice] else []
  else [].

(** The condition of the step: the price above a rising pair of averages on a
    BUY-family label, or below a falling pair on a SELL-family label. *)
Definition trend_confirmed (sma20 sma50 currentPrice : R) (st : Acc.t) : Prop :=
  (currentPrice > sma20 /\ sma20 > sma50
   /\ includes "BUY" (Acc.signal st) = true)
  \/ (currentPrice < sma20 /\ sma20 < sma50
      /\ includes "SELL" (Acc.signal st) = true).

(** The step adds 15 to the confidence and one string to the rationale. *)
Definition adds_confirmation (st st' : Acc.t) : Prop :=
  Acc.confidence st' = (Acc.confidence st + 15)%Z
  /\ exists reason, Acc.reasons st' = Acc.reasons st ++ [reason].

(** The step as the specification describes it, for two averages that are
    both available. *)
Definition ma_step_as_specified (sma20 sma50 currentPrice : R) (st : Acc.t)
    : Prop :=
  let st' := movingAverageAnalysis (Some sma20) (Some sma50) currentPrice st in
  (adds_confirmation st st' <-> trend_confirmed sma20 sma50 currentPrice st)
  /\ Acc.signal st' = Acc.signal st.

(** What a confirmation step does when it does anything. *)
Definition confirmed_by (st st' : Acc.t) : Prop :=
  Acc.signal st' = Acc.signal st
  /\ Acc.confidence st' = (Acc.confidence st + 15)%Z
  /\ length (Acc.reasons st') = S (length (Acc.reasons st)).

(** ** Caches the program can hold *)

(** The caches that a run of the program goes through: the initial one, and
    every successful refresh of one of them. *)
Inductive reachable : Cache.t -> Prop :=
| reachable_initial : reachable marketDataCache
| reachable_refresh (now : R) (formattedData : list Candle) (cache : Cache.t) :
    reachable cache -> reachable (fetchGoldData now formattedData cache).

(** The bands of an indicator set are centred on its short moving average. *)
Definition centred (ind : Indicators) : Prop :=
  forall b, bollinger ind = Some b ->
            sma20 ind = Some (middle b) /\ lower b <= middle b <= upper b.

(** ** Candle sequences used as examples *)

(** A candle whose four prices are all [c]. *)
Definition bar (c : R) : Candle := mkCandle 0 c c c c 0.

(** [n] candles with one and the same price [c]. *)
Definition flat (c : R) (n : nat) : list Candle := repeat (bar c) n.

(** Twenty candles whose closes alternate between [a] and [b]. *)
Definition alternating (a b : R) : list Candle :=
  concat (repeat [bar a; bar b] 10).

(** A candle given by its high and its low. *)
Definition spike (h l : R) : Candle := mkCandle 0 l h l l 0.

(** Twenty candles with highs of 12 at positions 5 and 10 and 10 elsewhere,
    and a constant low. *)
Definition twoPeaks : list Candle :=
  repeat (spike 10 9) 5 ++ [spike 12 9] ++ repeat (spike 10 9) 4
  ++ [spike 12 9] ++ repeat (spike 10 9) 9.

(** Twenty candles: five rising closes, one unchanged close, then thirteen
    drops of 1.  The last 14 transitions are one change of 0 and 13 losses
    of 1. *)
Definition falling : list Candle :=
  map bar [15; 16; 17; 18; 19; 20; 20; 19; 18; 17;
           16; 15; 14; 13; 12; 11; 10; 9; 8; 7].

(** Fifty candles whose last twenty closes sum to 0 and whose closes sum to
    -50, ending on a close of 1 after 7 losses of 1, 3 gains of 1 and 4
    unchanged closes. *)
Definition zeroAverage : list Candle :=
  map bar (repeat (-2) 20 ++ repeat (-1) 10 ++ [-3; -3; -3; -3; -4]
           ++ [5; 4; 3; 2; 1; 0; -1; -2; -1; 0; 1; 1; 1; 1; 1]).

(** Fifty candles: thirty-five closes of 1000, then fifteen closes rising by
    1 from 100 to 114. *)
Definition rebound : list Candle :=
  map bar (repeat 1000 35
           ++ [100; 101; 102; 103; 104; 105; 106; 107; 108; 109;
               110; 111; 112; 113; 114]).

Arguments Rltb : simpl never.
Arguments Rgtb : simpl never.
Arguments is_zero : simpl never.

(** * Properties *)

(** ** Comparisons on numbers *)

Lemma Rltb_true (x y : R) : Rltb x y = true <-> x < y.
Proof.
  unfold Rltb. destruct (Rlt_dec x y); split; intros; auto; discriminate.
Qed.

Lemma Rltb_false (x y : R) : Rltb x y = false <-> y <= x.
Proof.
  unfold Rltb. destruct (Rlt_dec x y); split; intros; auto; try discriminate; lra.
Qed.

Lemma Rgtb_true (x y : R) : Rgtb x y = true <-> x > y.
Proof. unfold Rgtb. rewrite Rltb_true. lra. Qed.

Lemma Rgtb_false (x y : R) : Rgtb x y = false <-> x <= y.
Proof. unfold Rgtb. rewrite Rltb_false. lra. Qed.

Lemma is_zero_true (x : R) : is_zero x = true <-> x = 0.
Proof.
  unfold is_zero. destruct (Req_dec_T x 0); split; intros; auto; discriminate.
Qed.

Lemma is_zero_false (x : R) : is_zero x = false <-> x <> 0.
Proof.
  unfold is_zero. destruct (Req_dec_T x 0); split; intros; auto;
    try discriminate; contradiction.
Qed.

Lemma truthy_Some (x : R) : truthy (Some x) = true <-> x <> 0.
Proof.
  simpl. rewrite negb_true_iff. apply is_zero_false.
Qed.

Lemma num_pos (n : nat) : (1 <= n)%nat -> 0 < num n.
Proof.
  intros H. unfold num. apply IZR_lt. lia.
Qed.

(** Settles a comparison between two numbers that [lra] can order. *)
Ltac settle :=
  repeat match goal with
  | |- context [Rltb ?x ?y] =>
      first [ replace (Rltb x y) with true by (symmetry; apply Rltb_true; lra)
            | replace (Rltb x y) with false by (symmetry; apply Rltb_false; lra) ]
  | |- context [Rgtb ?x ?y] =>
      first [ replace (Rgtb x y) with true by (symmetry; apply Rgtb_true; lra)
            | replace (Rgtb x y) with false by (symmetry; apply Rgtb_false; lra) ]
  | |- context [is_zero ?x] =>
      first [ replace (is_zero x) with true by (symmetry; apply is_zero_true; lra)
            | replace (is_zero x) with false by (symmetry; apply is_zero_false; lra) ]
  end.

(** ** Formatting to one decimal *)

Lemma toFixed1_nonneg (x : R) (n : Z) :
  0 <= x -> IZR n <= 10 * x + 1 / 2 < IZR n + 1 ->
  toFixed1 x = (digits (n / 10) ++ "." ++ digits (n mod 10))%string.
Proof.
  intros Hx Hn. unfold toFixed1.
  replace (Int_part (10 * Rabs x + 1 / 2)) with n.
  - settle. reflexivity.
  - apply Int_part_spec. rewrite Rabs_pos_eq by lra. lra.
Qed.

Example toFixed1_30 : toFixed1 30 = "30.0"%string.
Proof. rewrite (toFixed1_nonneg 30 300); [reflexivity | lra | lra]. Qed.

Example toFixed1_quarter : toFixed1 (1 / 4) = "0.3"%string.
Proof. rewrite (toFixed1_nonneg (1 / 4) 3); [reflexivity | lra | lra]. Qed.

(** ** Short input *)

(** C3: on a candle sequence shorter than the period (shorter than period + 1
    for the momentum oscillator) the simple moving average, the exponential
    moving average, the momentum oscillator and the volatility bands are all
    absent.  The functions are total: no input makes them fail. *)
Theorem short_input_absent (data : list Candle) (period : nat) (multiplier : R) :
  ((length data < period)%nat ->
     TechnicalAnalysis.calculateSMA data period = None
     /\ TechnicalAnalysis.calculateEMA data period = None
     /\ TechnicalAnalysis.calculateBollingerBands data period multiplier = None)
  /\ ((length data < period + 1)%nat ->
        TechnicalAnalysis.calculateRSI data period = None).
Proof.
  split; intros H.
  - apply Nat.ltb_lt in H.
    unfold TechnicalAnalysis.calculateSMA, TechnicalAnalysis.calculateEMA,
      TechnicalAnalysis.calculateBollingerBands.
    rewrite H. auto.
  - apply Nat.ltb_lt in H.
    unfold TechnicalAnalysis.calculateRSI. rewrite H. reflexivity.
Qed.

(** ** Pattern detection needs 20 candles *)

(** C6: with fewer than 20 candles, so with exactly 19, pattern detection
    returns the empty list. *)
Theorem detectPatterns_short (data : list Candle) :
  (length data < 20)%nat -> PatternRecognition.detectPatterns data = [].
Proof.
  intros H. unfold PatternRecognition.detectPatterns.
  apply Nat.ltb_lt in H. rewrite H. reflexivity.
Qed.

Lemma detectPatterns_short_witness :
  (length (flat 7 19) < 20)%nat
  /\ PatternRecognition.detectPatterns (flat 7 19) = [].
Proof.
  split.
  - simpl. lia.
  - apply detectPatterns_short. simpl. lia.
Defined.

(** ** The rule chain *)

Lemma movingAverageAnalysis_signal (a b : option R) (p : R) (st : Acc.t) :
  Acc.signal (movingAverageAnalysis a b p st) = Acc.signal st.
Proof.
  unfold movingAverageAnalysis.
  destruct (truthy a && truthy b); [|reflexivity].
  destruct a as [a|]; [|reflexivity]. destruct b as [b|]; [|reflexivity].
  destruct (Rgtb p a && Rgtb a b && includes "BUY" (Acc.signal st));
    [reflexivity|].
  destruct (Rltb p a && Rltb a b && includes "SELL" (Acc.signal st));
    reflexivity.
Qed.

Lemma bollingerAnalysis_signal (bb : option Bands) (p : R) (st : Acc.t) :
  Acc.signal (bollingerAnalysis bb p st) = Acc.signal st.
Proof.
  unfold bollingerAnalysis. destruct bb as [bb|]; [|reflexivity].
  destruct (Rltb p (lower bb) && includes "BUY" (Acc.signal st));
    [reflexivity|].
  destruct (Rgtb p (upper bb) && includes "SELL" (Acc.signal st));
    reflexivity.
Qed.

Lemma generateSignal_run (cache : Cache.t) (r : R) :
  rsi (Cache.indicators cache) = Some r -> r <> 0 ->
  Cache.prices cache <> [] ->
  let currentPrice :=
    close (at_index (Cache.prices cache) (length (Cache.prices cache) - 1)) in
  let st :=
    bollingerAnalysis (bollinger (Cache.indicators cache)) currentPrice
      (movingAverageAnalysis (sma20 (Cache.indicators cache))
         (sma50 (Cache.indicators cache)) currentPrice
         (rsiAnalysis r (Acc.mk "HOLD" 0 []))) in
  generateSignal cache =
    {| Signal.signal := Acc.signal st;
       Signal.confidence := Z.min (Acc.confidence st) 95;
       Signal.reasons := Some (Acc.reasons st);
       Signal.price := Some currentPrice;
       Signal.indicators := Some (Cache.indicators cache);
       Signal.patterns := Some (firstn 3 (Cache.patterns cache)) |}.
Proof.
  intros Hr Hnz Hp. unfold generateSignal. rewrite Hr.
  apply truthy_Some in Hnz. rewrite Hnz.
  destruct (Cache.prices cache) as [|c l] eqn:E; [contradiction|].
  reflexivity.
Qed.

Lemma generateSignal_cases (cache : Cache.t) :
  generateSignal cache = noData
  \/ exists r, rsi (Cache.indicators cache) = Some r /\ r <> 0
               /\ Cache.prices cache <> [].
Proof.
  unfold generateSignal.
  destruct (rsi (Cache.indicators cache)) as [r|] eqn:Hr; [|left; reflexivity].
  destruct (truthy (Some r)) eqn:Ht; [|left; reflexivity].
  destruct (Cache.prices cache) as [|c l] eqn:E; [left; reflexivity|].
  right. exists r. repeat split; [apply truthy_Some; exact Ht | discriminate].
Qed.

(** C9: whatever rules match, the confidence of the signal the synthesizer
    returns never exceeds 95. *)
Theorem confidence_capped (cache : Cache.t) :
  (Signal.confidence (generateSignal cache) <= 95)%Z.
Proof.
  destruct (generateSignal_cases cache) as [H | (r & Hr & Hnz & Hp)].
  - rewrite H. simpl. lia.
  - rewrite (generateSignal_run cache r Hr Hnz Hp). simpl. apply Z.le_min_r.
Qed.

(** C10: the pattern list has no influence on the classification, the
    confidence or the rationale list (nor on the price and the indicator set
    reported): they are the same for every pattern list.  The patterns show
    up in the signal only as a copy of the first three, and not at all in the
    NO_DATA answer. *)
Theorem patterns_do_not_influence
    (prices : list Candle) (ind : Indicators) (lu : option R)
    (src : option string) (pats1 pats2 : list Pattern.t) :
  let s1 := generateSignal (Cache.mk prices ind pats1 lu src) in
  let s2 := generateSignal (Cache.mk prices ind pats2 lu src) in
  Signal.signal s1 = Signal.signal s2
  /\ Signal.confidence s1 = Signal.confidence s2
  /\ Signal.reasons s1 = Signal.reasons s2
  /\ Signal.price s1 = Signal.price s2
  /\ Signal.indicators s1 = Signal.indicators s2
  /\ ((Signal.signal s1 = "NO_DATA"%string /\ Signal.patterns s1 = None)
      \/ (Signal.signal s1 <> "NO_DATA"%string
          /\ Signal.patterns s1 = Some (firstn 3 pats1))).
Proof.
  intros s1 s2. subst s1 s2.
  destruct (generateSignal_cases (Cache.mk prices ind pats1 lu src))
    as [H | (r & Hr & Hnz & Hp)].
  - assert (H2 : generateSignal (Cache.mk prices ind pats2 lu src) = noData).
    { revert H. unfold generateSignal. simpl.
      destruct (negb (truthy (rsi ind)) || (length prices =? 0)%nat);
        [reflexivity|].
      destruct (rsi ind); [discriminate | reflexivity]. }
    rewrite H, H2. simpl. repeat split; auto.
  - rewrite (generateSignal_run _ r Hr Hnz Hp).
    rewrite (generateSignal_run (Cache.mk prices ind pats2 lu src) r Hr Hnz Hp).
    simpl. repeat split; auto.
    right. split; [|reflexivity].
    rewrite bollingerAnalysis_signal, movingAverageAnalysis_signal.
    unfold rsiAnalysis.
    destruct (Rltb r 25); [simpl; discriminate|].
    destruct (Rltb r 35); [simpl; discriminate|].
    destruct (Rgtb r 75); [simpl; discriminate|].
    destruct (Rgtb r 65); simpl; discriminate.
Qed.

Lemma short_input_absent_witness :
  (length (flat 7 14) < 20)%nat
  /\ (length (flat 7 14) < 14 + 1)%nat
  /\ TechnicalAnalysis.calculateSMA (flat 7 14) 20 = None
  /\ TechnicalAnalysis.calculateEMA (flat 7 14) 20 = None
  /\ TechnicalAnalysis.calculateBollingerBands (flat 7 14) 20 2 = None
  /\ TechnicalAnalysis.calculateRSI (flat 7 14) 14 = None.
Proof.
  assert (H1 : (length (flat 7 14) < 20)%nat) by (simpl; lia).
  assert (H2 : (length (flat 7 14) < 14 + 1)%nat) by (simpl; lia).
  split; [exact H1|]. split; [exact H2|].
  destruct (proj1 (short_input_absent (flat 7 14) 20 2) H1) as (Ha & Hb & Hc).
  pose proof (proj2 (short_input_absent (flat 7 14) 14 2) H2) as Hd.
  auto.
Defined.

(** ** The momentum oscillator *)

Section Oscillator.

Variable data : list Candle.

Lemma rsi_step_nonneg (acc : R * R) (i : nat) :
  0 <= fst acc -> 0 <= snd acc ->
  0 <= fst (TechnicalAnalysis.rsi_step data acc i)
  /\ 0 <= snd (TechnicalAnalysis.rsi_step data acc i).
Proof.
  destruct acc as [gains losses]. simpl. intros Hg Hl.
  match goal with |- context [Rgtb ?c 0] => destruct (Rgtb c 0) eqn:E end.
  - apply Rgtb_true in E. simpl. lra.
  - simpl. split; [lra|].
    match goal with |- context [Rabs ?c] => pose proof (Rabs_pos c) end. lra.
Qed.

Lemma rsi_fold_nonneg (l : list nat) (acc : R * R) :
  0 <= fst acc -> 0 <= snd acc ->
  0 <= fst (fold_left (TechnicalAnalysis.rsi_step data) l acc)
  /\ 0 <= snd (fold_left (TechnicalAnalysis.rsi_step data) l acc).
Proof.
  revert acc. induction l as [|i l IH]; intros acc Hg Hl.
  - simpl. auto.
  - simpl. destruct (rsi_step_nonneg acc i Hg Hl) as [Hg' Hl'].
    apply IH; assumption.
Qed.

Lemma rsi_sums_nonneg (period : nat) :
  0 <= fst (TechnicalAnalysis.rsi_sums data period)
  /\ 0 <= snd (TechnicalAnalysis.rsi_sums data period).
Proof.
  unfold TechnicalAnalysis.rsi_sums. apply rsi_fold_nonneg; simpl; lra.
Qed.

Lemma rsi_fold_spec (l : list nat) (gains losses : R) :
  let change i := close (at_index data (length data - i))
                  - close (at_index data (length data - i - 1)) in
  fold_left (TechnicalAnalysis.rsi_step data) l (gains, losses) =
    (gains + total (map upward (map change l)),
     losses + total (map downward (map change l))).
Proof.
  intros change. unfold total. revert gains losses.
  induction l as [|i l IH]; intros gains losses.
  - simpl. rewrite !Rplus_0_r. reflexivity.
  - cbn [fold_left map fold_right].
    unfold TechnicalAnalysis.rsi_step at 2. fold (change i).
    destruct (Rgtb (change i) 0) eqn:E; rewrite IH.
    + apply Rgtb_true in E.
      unfold upward at 2, downward at 2.
      rewrite Rmax_left by lra. rewrite Rmax_right by lra.
      f_equal; lra.
    + apply Rgtb_false in E.
      unfold upward at 2, downward at 2.
      rewrite Rmax_right by lra. rewrite Rmax_left by lra.
      rewrite Rabs_left1 by lra.
      f_equal; lra.
Qed.

(** The loop sums the gains and the losses of the window. *)
Lemma rsi_sums_spec (period : nat) :
  TechnicalAnalysis.rsi_sums data period =
    (total (map upward (changes data period)),
     total (map downward (changes data period))).
Proof.
  unfold TechnicalAnalysis.rsi_sums. rewrite rsi_fold_spec.
  unfold changes. rewrite !Rplus_0_l. reflexivity.
Qed.

End Oscillator.

(** The value of the oscillator once the length guard is passed. *)
Lemma calculateRSI_value (data : list Candle) (period : nat) :
  (period + 1 <= length data)%nat ->
  TechnicalAnalysis.calculateRSI data period =
    let gains := fst (TechnicalAnalysis.rsi_sums data period) in
    let losses := snd (TechnicalAnalysis.rsi_sums data period) in
    if is_zero (losses / num period) then Some 100
    else Some (100 - 100 / (1 + gains / num period / (losses / num period))).
Proof.
  intros H. unfold TechnicalAnalysis.calculateRSI.
  replace (length data <? period + 1)%nat with false
    by (symmetry; apply Nat.ltb_ge; exact H).
  destruct (TechnicalAnalysis.rsi_sums data period) as [gains losses].
  reflexivity.
Qed.

(** C2: on at least period + 1 candles, with period at least 1, the momentum
    oscillator returns a number between 0 and 100; when the downward
    close-to-close changes of the window sum to zero it returns exactly 100
    (the quotient by a zero average loss is never taken). *)
Theorem calculateRSI_range (data : list Candle) (period : nat) :
  (1 <= period)%nat -> (period + 1 <= length data)%nat ->
  exists r, TechnicalAnalysis.calculateRSI data period = Some r
            /\ 0 <= r <= 100
            /\ (total (map downward (changes data period)) = 0 -> r = 100).
Proof.
  intros Hp Hlen.
  replace (total (map downward (changes data period)))
    with (snd (TechnicalAnalysis.rsi_sums data period))
    by (rewrite rsi_sums_spec; reflexivity).
  rewrite (calculateRSI_value data period Hlen). cbv zeta.
  destruct (rsi_sums_nonneg data period) as [Hg Hl].
  pose proof (num_pos period Hp) as Hn.
  set (gains := fst (TechnicalAnalysis.rsi_sums data period)) in *.
  set (losses := snd (TechnicalAnalysis.rsi_sums data period)) in *.
  destruct (is_zero (losses / num period)) eqn:Ez.
  - exists 100. repeat split; lra.
  - apply is_zero_false in Ez.
    assert (Hlpos : 0 < losses).
    { destruct Hl as [Hl | Hl]; [exact Hl|].
      exfalso. apply Ez. rewrite <- Hl. unfold Rdiv. apply Rmult_0_l. }
    eexists. split; [reflexivity|]. split.
    + assert (Hq : gains / num period / (losses / num period) = gains / losses).
      { field. lra. }
      rewrite Hq.
      assert (Hrs : 0 <= gains / losses).
      { apply Rmult_le_pos; [exact Hg|]. left. apply Rinv_0_lt_compat. exact Hlpos. }
      assert (Hd : 0 < / (1 + gains / losses)).
      { apply Rinv_0_lt_compat. lra. }
      assert (Hd1 : / (1 + gains / losses) <= 1).
      { rewrite <- Rinv_1 at 2. apply Rinv_le_contravar; lra. }
      unfold Rdiv at 1. lra.
    + intros H0. lra.
Qed.

Lemma calculateRSI_range_witness :
  (1 <= 14)%nat /\ (14 + 1 <= length (alternating 1 3))%nat
  /\ exists r, TechnicalAnalysis.calculateRSI (alternating 1 3) 14 = Some r
               /\ 0 <= r <= 100
               /\ (total (map downward (changes (alternating 1 3) 14)) = 0
                   -> r = 100).
Proof.
  split; [lia|]. split; [simpl; lia|].
  apply (calculateRSI_range (alternating 1 3) 14); simpl; lia.
Defined.

(** ** The volatility bands *)

(** The bands once the guards are passed. *)
Lemma calculateBollingerBands_value (data : list Candle) (period : nat)
    (multiplier sma : R) :
  TechnicalAnalysis.calculateSMA data period = Some sma -> sma <> 0 ->
  TechnicalAnalysis.calculateBollingerBands data period multiplier =
    let stdDev :=
      sqrt (fold_left (fun sum item => sum + (close item - sma) ^ 2)
              (slice_last period data) 0 / num period) in
    Some {| upper := sma + stdDev * multiplier;
            middle := sma;
            lower := sma - stdDev * multiplier;
            width := (stdDev * multiplier * 2) / sma * 100 |}.
Proof.
  intros Hs Hnz. unfold TechnicalAnalysis.calculateBollingerBands.
  rewrite Hs.
  destruct (length data <? period)%nat eqn:E.
  - unfold TechnicalAnalysis.calculateSMA in Hs. rewrite E in Hs. discriminate.
  - apply is_zero_false in Hnz. rewrite Hnz. reflexivity.
Qed.

Lemma calculateBollingerBands_inv (data : list Candle) (period : nat)
    (multiplier : R) (b : Bands) :
  TechnicalAnalysis.calculateBollingerBands data period multiplier = Some b ->
  exists stdDev,
    0 <= stdDev /\ middle b <> 0
    /\ TechnicalAnalysis.calculateSMA data period = Some (middle b)
    /\ upper b = middle b + stdDev * multiplier
    /\ lower b = middle b - stdDev * multiplier
    /\ width b = (stdDev * multiplier * 2) / middle b * 100.
Proof.
  unfold TechnicalAnalysis.calculateBollingerBands.
  destruct (length data <? period)%nat; [discriminate|].
  destruct (TechnicalAnalysis.calculateSMA data period) as [sma|];
    [|discriminate].
  destruct (is_zero sma) eqn:Ez; [discriminate|].
  intros H. injection H as <-. simpl.
  eexists. split; [apply sqrt_pos|].
  split; [apply is_zero_false; exact Ez|]. repeat split; reflexivity.
Qed.

Lemma In_slice_last {A : Type} (n : nat) (l : list A) (x : A) :
  In x (slice_last n l) -> In x l.
Proof.
  destruct n as [|n]; unfold slice_last; [auto|].
  intros H. rewrite <- (firstn_skipn (length l - S n) l).
  apply in_or_app. right. exact H.
Qed.

Lemma length_slice_last {A : Type} (n : nat) (l : list A) :
  (1 <= n)%nat -> length (slice_last n l) = Nat.min n (length l).
Proof.
  destruct n as [|n]; [lia|]. intros _. unfold slice_last.
  rewrite length_skipn. lia.
Qed.

Lemma sum_close_fold_pos (l : list Candle) (acc : R) :
  (forall x, In x l -> 0 < close x) ->
  acc <= fold_left (fun sum item => sum + close item) l acc
  /\ (l <> [] -> acc < fold_left (fun sum item => sum + close item) l acc).
Proof.
  revert acc. induction l as [|x l IH]; intros acc H.
  - simpl. split; [lra | intros E; contradiction].
  - simpl. pose proof (H x (or_introl eq_refl)) as Hx.
    destruct (IH (acc + close x) (fun y Hy => H y (or_intror Hy))) as [Hle _].
    split; [lra | intros _; lra].
Qed.

(** On positive closes a computed moving average is positive. *)
Lemma calculateSMA_positive (data : list Candle) (period : nat) (sma : R) :
  (1 <= period)%nat -> (forall x, In x data -> 0 < close x) ->
  TechnicalAnalysis.calculateSMA data period = Some sma -> 0 < sma.
Proof.
  intros Hp Hpos. unfold TechnicalAnalysis.calculateSMA.
  destruct (length data <? period)%nat eqn:E; [discriminate|].
  apply Nat.ltb_ge in E. intros H. injection H as <-.
  assert (Hne : slice_last period data <> []).
  { intros Hnil. apply (f_equal (@length Candle)) in Hnil.
    rewrite length_slice_last in Hnil by exact Hp. simpl in Hnil. lia. }
  assert (Hsum : 0 < sum_close (slice_last period data)).
  { apply sum_close_fold_pos; [|exact Hne].
    intros x Hx. apply Hpos. apply (In_slice_last period). exact Hx. }
  apply Rmult_lt_0_compat; [exact Hsum|].
  apply Rinv_0_lt_compat. apply num_pos. exact Hp.
Qed.

(** C4, as the code has it: with a period of at least 1 and a multiplier that
    is not negative (the default is 2), computed bands satisfy
    lower <= middle <= upper, and the width is not negative whenever the
    middle is positive, which it is whenever all closes are positive. *)
Theorem bands_ordered (data : list Candle) (period : nat) (multiplier : R)
    (b : Bands) :
  (1 <= period)%nat -> 0 <= multiplier ->
  TechnicalAnalysis.calculateBollingerBands data period multiplier = Some b ->
  lower b <= middle b <= upper b
  /\ (0 < middle b -> 0 <= width b)
  /\ ((forall x, In x data -> 0 < close x) -> 0 < middle b /\ 0 <= width b).
Proof.
  intros Hp Hm H.
  destruct (calculateBollingerBands_inv data period multiplier b H)
    as (sd & Hsd & Hnz & Hsma & Hu & Hl & Hw).
  assert (Hprod : 0 <= sd * multiplier) by (apply Rmult_le_pos; assumption).
  assert (Hwidth : 0 < middle b -> 0 <= width b).
  { intros Hpos. rewrite Hw.
    apply Rmult_le_pos; [|lra].
    apply Rmult_le_pos; [lra|].
    left. apply Rinv_0_lt_compat. exact Hpos. }
  split; [lra|]. split; [exact Hwidth|].
  intros Hall.
  pose proof (calculateSMA_positive data period (middle b) Hp Hall Hsma) as Hmid.
  split; [exact Hmid | exact (Hwidth Hmid)].
Qed.

Lemma sum_close_alternating (a b : R) :
  sum_close (alternating a b) = 10 * (a + b).
Proof. unfold sum_close. simpl. lra. Qed.

Lemma calculateSMA_alternating (a b : R) :
  TechnicalAnalysis.calculateSMA (alternating a b) 20 = Some ((a + b) / 2).
Proof.
  unfold TechnicalAnalysis.calculateSMA.
  change (slice_last 20 (alternating a b)) with (alternating a b).
  rewrite sum_close_alternating.
  change (length (alternating a b) <? 20)%nat with false.
  change (num 20) with 20. cbv iota. f_equal. lra.
Qed.

Lemma calculateBollingerBands_alternating (a b : R) :
  a + b <> 0 ->
  TechnicalAnalysis.calculateBollingerBands (alternating a b) 20 2 =
    Some {| upper := (a + b) / 2 + Rabs (a - b);
            middle := (a + b) / 2;
            lower := (a + b) / 2 - Rabs (a - b);
            width := (Rabs (a - b) * 2) / ((a + b) / 2) * 100 |}.
Proof.
  intros Hnz.
  rewrite (calculateBollingerBands_value _ _ _ _ (calculateSMA_alternating a b))
    by lra.
  cbv zeta.
  change (slice_last 20 (alternating a b)) with (alternating a b).
  change (num 20) with 20.
  assert (Hsd : sqrt (fold_left
                        (fun sum item => sum + (close item - (a + b) / 2) ^ 2)
                        (alternating a b) 0 / 20) = Rabs (a - b) / 2).
  { replace (fold_left _ _ _ / 20) with (((a - b) / 2)²).
    - rewrite sqrt_Rsqr_abs. unfold Rdiv. rewrite Rabs_mult.
      rewrite (Rabs_pos_eq (/ 2)); lra.
    - unfold Rsqr. simpl. field. }
  rewrite Hsd. f_equal. f_equal; lra.
Qed.

Lemma bands_ordered_witness :
  (1 <= 20)%nat /\ 0 <= 2
  /\ TechnicalAnalysis.calculateBollingerBands (alternating 1 3) 20 2 =
       Some (mkBands 4 2 0 200)
  /\ lower (mkBands 4 2 0 200) <= middle (mkBands 4 2 0 200)
       <= upper (mkBands 4 2 0 200)
  /\ (0 < middle (mkBands 4 2 0 200) -> 0 <= width (mkBands 4 2 0 200)).
Proof.
  assert (H : TechnicalAnalysis.calculateBollingerBands (alternating 1 3) 20 2 =
              Some (mkBands 4 2 0 200)).
  { rewrite calculateBollingerBands_alternating by lra.
    replace (Rabs (1 - 3)) with 2 by (rewrite Rabs_left; lra).
    f_equal. f_equal; lra. }
  split; [lia|]. split; [lra|]. split; [exact H|].
  destruct (bands_ordered (alternating 1 3) 20 2 _ ltac:(lia) ltac:(lra) H)
    as (Hord & Hw & _).
  split; [exact Hord | exact Hw].
Defined.

(** C4, counterexample to the claim as stated: on twenty candles whose closes
    alternate between -1 and -3 the bands are computed with the default period
    and multiplier, and their width is -200. *)
Lemma bands_width_negative :
  (20 <= length (alternating (-1) (-3)))%nat
  /\ TechnicalAnalysis.calculateBollingerBands (alternating (-1) (-3))
       TechnicalAnalysis.bbPeriod TechnicalAnalysis.bbMultiplier =
       Some (mkBands 0 (-2) (-4) (-200))
  /\ ~ (lower (mkBands 0 (-2) (-4) (-200)) <= middle (mkBands 0 (-2) (-4) (-200))
          <= upper (mkBands 0 (-2) (-4) (-200))
        /\ 0 <= width (mkBands 0 (-2) (-4) (-200))).
Proof.
  split; [simpl; lia|]. split.
  - unfold TechnicalAnalysis.bbPeriod, TechnicalAnalysis.bbMultiplier.
    rewrite calculateBollingerBands_alternating by lra.
    replace (Rabs (-1 - -3)) with 2 by (rewrite Rabs_right; lra).
    f_equal. f_equal; lra.
  - simpl. lra.
Qed.

(** ** The pattern detector *)

Lemma scan_fold (data : list Candle) (l : list nat)
    (highs lows : list Extremum) :
  fold_left (PatternRecognition.scan_step data) l (highs, lows) =
    (highs ++ map (fun i => mkExtremum i (high (at_index data i)))
                  (filter (is_local_high data) l),
     lows ++ map (fun i => mkExtremum i (low (at_index data i)))
                 (filter (is_local_low data) l)).
Proof.
  revert highs lows. induction l as [|i l IH]; intros highs lows.
  - simpl. rewrite !app_nil_r. reflexivity.
  - simpl. rewrite IH. fold (is_local_high data i). fold (is_local_low data i).
    destruct (is_local_high data i), (is_local_low data i); simpl;
      rewrite <- ?app_assoc; reflexivity.
Qed.

(** The scanning loop computes the local highs and the local lows. *)
Lemma scan_spec (data : list Candle) :
  PatternRecognition.scan data = (localHighs data, localLows data).
Proof.
  unfold PatternRecognition.scan. rewrite scan_fold. reflexivity.
Qed.

Lemma detectDoubleTopBottom_split (data : list Candle) :
  PatternRecognition.detectDoubleTopBottom data =
    emitted PatternRecognition.doubleTop (localHighs data)
    ++ emitted PatternRecognition.doubleBottom (localLows data).
Proof.
  unfold PatternRecognition.detectDoubleTopBottom. rewrite scan_spec.
  unfold emitted.
  destruct (2 <=? length (localHighs data))%nat;
    destruct (2 <=? length (localLows data))%nat; cbv zeta;
    repeat match goal with
           | |- context [div_ltb ?x ?y ?c] => destruct (div_ltb x y c)
           end; reflexivity.
Qed.

Lemma slice_last_two {A : Type} (l : list A) :
  (2 <= length l)%nat -> exists a b, slice_last 2 l = [a; b].
Proof.
  intros H. unfold slice_last.
  assert (Hl : length (skipn (length l - 2) l) = 2%nat).
  { rewrite length_skipn. lia. }
  destruct (skipn (length l - 2) l) as [|a [|b [|c t]]]; simpl in Hl;
    try discriminate.
  exists a, b. reflexivity.
Qed.

Lemma emitted_inv (make : R -> Pattern.t) (ext : list Extremum) (p : Pattern.t) :
  In p (emitted make ext) ->
  exists h1 h2,
    slice_last 2 ext = [h1; h2]
    /\ (price h1 + price h2) / 2 <> 0
    /\ relDiff (price h1) (price h2) < 0.01
    /\ p = make ((price h1 + price h2) / 2).
Proof.
  unfold emitted. destruct (2 <=? length ext)%nat eqn:E; [|intros []].
  apply Nat.leb_le in E. destruct (slice_last_two ext E) as (h1 & h2 & Hs).
  rewrite Hs. cbn [nth]. unfold div_ltb.
  destruct (is_zero ((price h1 + price h2) / 2)) eqn:Ez; [intros []|].
  destruct (Rltb _ _) eqn:El; [|intros []].
  intros [<- | []]. exists h1, h2.
  apply is_zero_false in Ez. apply Rltb_true in El. auto.
Qed.

(** C5: every pattern the detector emits has confidence 75.  A DOUBLE_TOP has
    as resistance the average of the two most recent local highs of the last
    20 candles, whose relative difference is below 1%; a DOUBLE_BOTTOM has as
    support the average of the two most recent local lows, likewise.  When
    the relative difference of the two most recent local highs (lows) is at
    least 1%, no DOUBLE_TOP (DOUBLE_BOTTOM) is emitted. *)
Theorem double_top_bottom (data : list Candle) :
  let recent := slice_last 20 data in
  (forall p, In p (PatternRecognition.detectPatterns data) ->
     Pattern.confidence p = 75%Z
     /\ ((Pattern.type p = "DOUBLE_TOP"%string
          /\ exists h1 h2,
               slice_last 2 (localHighs recent) = [h1; h2]
               /\ Pattern.resistance p = Some ((price h1 + price h2) / 2)
               /\ relDiff (price h1) (price h2) < 0.01)
         \/ (Pattern.type p = "DOUBLE_BOTTOM"%string
             /\ exists l1 l2,
                  slice_last 2 (localLows recent) = [l1; l2]
                  /\ Pattern.support p = Some ((price l1 + price l2) / 2)
                  /\ relDiff (price l1) (price l2) < 0.01)))
  /\ (forall h1 h2,
        slice_last 2 (localHighs recent) = [h1; h2] ->
        relDiff (price h1) (price h2) >= 0.01 ->
        forall p, In p (PatternRecognition.detectPatterns data) ->
                  Pattern.type p <> "DOUBLE_TOP"%string)
  /\ (forall l1 l2,
        slice_last 2 (localLows recent) = [l1; l2] ->
        relDiff (price l1) (price l2) >= 0.01 ->
        forall p, In p (PatternRecognition.detectPatterns data) ->
                  Pattern.type p <> "DOUBLE_BOTTOM"%string).
Proof.
  intros recent.
  assert (Hcases : forall p, In p (PatternRecognition.detectPatterns data) ->
            (exists h1 h2, slice_last 2 (localHighs recent) = [h1; h2]
               /\ relDiff (price h1) (price h2) < 0.01
               /\ p = PatternRecognition.doubleTop ((price h1 + price h2) / 2))
            \/ (exists l1 l2, slice_last 2 (localLows recent) = [l1; l2]
               /\ relDiff (price l1) (price l2) < 0.01
               /\ p = PatternRecognition.doubleBottom
                        ((price l1 + price l2) / 2))).
  { intros p. unfold PatternRecognition.detectPatterns.
    destruct (length data <? 20)%nat; [intros []|].
    cbv zeta. fold recent. rewrite app_nil_l, detectDoubleTopBottom_split.
    intros Hin. apply in_app_or in Hin. destruct Hin as [Hin | Hin];
      apply emitted_inv in Hin; destruct Hin as (e1 & e2 & Hs & _ & Hr & ->).
    - left. exists e1, e2. auto.
    - right. exists e1, e2. auto. }
  split; [|split].
  - intros p Hin.
    destruct (Hcases p Hin) as [(h1 & h2 & Hs & Hr & ->) | (l1 & l2 & Hs & Hr & ->)].
    + split; [reflexivity|]. left. split; [reflexivity|].
      exists h1, h2. auto.
    + split; [reflexivity|]. right. split; [reflexivity|].
      exists l1, l2. auto.
  - intros h1 h2 Hs Hge p Hin.
    destruct (Hcases p Hin) as [(e1 & e2 & Hs' & Hr & ->) | (l1 & l2 & _ & _ & ->)].
    + rewrite Hs in Hs'. injection Hs' as <- <-. lra.
    + simpl. discriminate.
  - intros l1 l2 Hs Hge p Hin.
    destruct (Hcases p Hin) as [(h1 & h2 & _ & _ & ->) | (e1 & e2 & Hs' & Hr & ->)].
    + simpl. discriminate.
    + rewrite Hs in Hs'. injection Hs' as <- <-. lra.
Qed.

Lemma filter_keep {A : Type} (f : A -> bool) (a : A) (l : list A) :
  f a = true -> filter f (a :: l) = a :: filter f l.
Proof. intros H. simpl. rewrite H. reflexivity. Qed.

Lemma filter_drop {A : Type} (f : A -> bool) (a : A) (l : list A) :
  f a = false -> filter f (a :: l) = filter f l.
Proof. intros H. simpl. rewrite H. reflexivity. Qed.

(** Runs a filter whose tests are comparisons of known numbers, one element
    at a time. *)
Ltac run_filter :=
  repeat first
    [ rewrite filter_keep
        by (unfold is_local_high, is_local_low; simpl; settle; reflexivity)
    | rewrite filter_drop
        by (unfold is_local_high, is_local_low; simpl; settle; reflexivity) ].

Lemma localHighs_twoPeaks :
  localHighs twoPeaks = [mkExtremum 5 12; mkExtremum 10 12].
Proof.
  unfold localHighs.
  change (interior twoPeaks) with (seq 1 18). cbn [seq].
  run_filter. reflexivity.
Qed.

Lemma localLows_twoPeaks : localLows twoPeaks = [].
Proof.
  unfold localLows.
  change (interior twoPeaks) with (seq 1 18). cbn [seq].
  run_filter. reflexivity.
Qed.

Lemma detectPatterns_twoPeaks :
  PatternRecognition.detectPatterns twoPeaks = [PatternRecognition.doubleTop 12].
Proof.
  unfold PatternRecognition.detectPatterns.
  change (length twoPeaks <? 20)%nat with false. cbv iota zeta.
  change (slice_last 20 twoPeaks) with twoPeaks.
  rewrite app_nil_l, detectDoubleTopBottom_split.
  rewrite localHighs_twoPeaks, localLows_twoPeaks.
  unfold emitted, div_ltb. simpl.
  replace ((12 + 12) / 2) with 12 by lra.
  replace (Rabs (12 - 12) / 12) with 0
    by (replace (12 - 12) with 0 by lra; rewrite Rabs_R0; lra).
  settle. reflexivity.
Qed.

Lemma double_top_bottom_witness :
  In (PatternRecognition.doubleTop 12) (PatternRecognition.detectPatterns twoPeaks)
  /\ Pattern.confidence (PatternRecognition.doubleTop 12) = 75%Z.
Proof.
  assert (Hin : In (PatternRecognition.doubleTop 12)
                   (PatternRecognition.detectPatterns twoPeaks)).
  { rewrite detectPatterns_twoPeaks. left. reflexivity. }
  split; [exact Hin|].
  exact (proj1 (proj1 (double_top_bottom twoPeaks) _ Hin)).
Defined.

(** ** The moving-average confirmation step *)

Lemma adds_confirmation_irrefl (st : Acc.t) : ~ adds_confirmation st st.
Proof. intros [H _]. lia. Qed.

Lemma movingAverageAnalysis_nonzero (a b p : R) (st : Acc.t) :
  a <> 0 -> b <> 0 ->
  movingAverageAnalysis (Some a) (Some b) p st =
    if Rgtb p a && Rgtb a b && includes "BUY" (Acc.signal st)
    then {| Acc.signal := Acc.signal st;
            Acc.confidence := Acc.confidence st + 15;
            Acc.reasons := Acc.reasons st ++ ["Bullish MA trend"%string] |}
    else if Rltb p a && Rltb a b && includes "SELL" (Acc.signal st)
    then {| Acc.signal := Acc.signal st;
            Acc.confidence := Acc.confidence st + 15;
            Acc.reasons := Acc.reasons st ++ ["Bearish MA trend"%string] |}
    else st.
Proof.
  intros Ha Hb. unfold movingAverageAnalysis.
  apply truthy_Some in Ha. apply truthy_Some in Hb. rewrite Ha, Hb.
  reflexivity.
Qed.

(** With two averages that are not zero the step does what the
    specification says of it: when both moving averages are available and
    neither is zero, the step adds exactly 15 confidence and one rationale
    string if and only if the trend is confirmed, and leaves the three
    variables untouched otherwise; whatever the averages are, present or
    not, the step never changes the classification label. *)
Theorem ma_confirmation (sma20 sma50 currentPrice : R) (st : Acc.t) :
  sma20 <> 0 -> sma50 <> 0 ->
  let st' := movingAverageAnalysis (Some sma20) (Some sma50) currentPrice st in
  (adds_confirmation st st' <-> trend_confirmed sma20 sma50 currentPrice st)
  /\ (~ trend_confirmed sma20 sma50 currentPrice st -> st' = st)
  /\ (forall a b : option R,
        Acc.signal (movingAverageAnalysis a b currentPrice st) = Acc.signal st).
Proof.
  intros Ha Hb st'. subst st'.
  rewrite (movingAverageAnalysis_nonzero _ _ _ _ Ha Hb).
  split; [|split].
  - destruct (Rgtb currentPrice sma20 && Rgtb sma20 sma50
              && includes "BUY" (Acc.signal st)) eqn:Ebuy.
    + apply andb_prop in Ebuy. destruct Ebuy as [E12 E3].
      apply andb_prop in E12. destruct E12 as [E1 E2].
      apply Rgtb_true in E1. apply Rgtb_true in E2.
      split; intros _.
      * left. auto.
      * split; [reflexivity|]. eexists. reflexivity.
    + destruct (Rltb currentPrice sma20 && Rltb sma20 sma50
                && includes "SELL" (Acc.signal st)) eqn:Esell.
      * apply andb_prop in Esell. destruct Esell as [E12 E3].
        apply andb_prop in E12. destruct E12 as [E1 E2].
        apply Rltb_true in E1. apply Rltb_true in E2.
        split; intros _.
        -- right. auto.
        -- split; [reflexivity|]. eexists. reflexivity.
      * split; intros H.
        -- exfalso. exact (adds_confirmation_irrefl st H).
        -- exfalso. destruct H as [(H1 & H2 & H3) | (H1 & H2 & H3)].
           ++ apply Rgtb_true in H1. apply Rgtb_true in H2.
              rewrite H1, H2, H3 in Ebuy. discriminate.
           ++ apply Rltb_true in H1. apply Rltb_true in H2.
              rewrite H1, H2, H3 in Esell. discriminate.
  - intros Hn.
    destruct (Rgtb currentPrice sma20 && Rgtb sma20 sma50
              && includes "BUY" (Acc.signal st)) eqn:Ebuy.
    + exfalso. apply Hn. left.
      apply andb_prop in Ebuy. destruct Ebuy as [E12 E3].
      apply andb_prop in E12. destruct E12 as [E1 E2].
      apply Rgtb_true in E1. apply Rgtb_true in E2. auto.
    + destruct (Rltb currentPrice sma20 && Rltb sma20 sma50
                && includes "SELL" (Acc.signal st)) eqn:Esell; [|reflexivity].
      exfalso. apply Hn. right.
      apply andb_prop in Esell. destruct Esell as [E12 E3].
      apply andb_prop in E12. destruct E12 as [E1 E2].
      apply Rltb_true in E1. apply Rltb_true in E2. auto.
  - intros a b. apply movingAverageAnalysis_signal.
Qed.

Lemma ma_confirmation_witness :
  2 <> 0 /\ 1 <> 0
  /\ adds_confirmation (Acc.mk "STRONG_BUY" 40 [])
       (movingAverageAnalysis (Some 2) (Some 1) 3 (Acc.mk "STRONG_BUY" 40 [])).
Proof.
  assert (H2 : 2 <> 0) by lra. assert (H1 : 1 <> 0) by lra.
  split; [exact H2|]. split; [exact H1|].
  apply (proj1 (ma_confirmation 2 1 3 (Acc.mk "STRONG_BUY" 40 []) H2 H1)).
  left. repeat split; lra.
Defined.

(** The step at a zero average: with a short average of 0, a
    long average of -1 and a price of 1 on a BUY label the trend is confirmed
    and both averages are available, yet the step leaves the confidence and
    the rationale as they are: a zero average fails the test
    [sma20 && sma50]. *)
Lemma ma_step_skips_zero_average :
  movingAverageAnalysis (Some 0) (Some (-1)) 1 (Acc.mk "BUY" 25 []) =
    Acc.mk "BUY" 25 []
  /\ trend_confirmed 0 (-1) 1 (Acc.mk "BUY" 25 [])
  /\ ~ ma_step_as_specified 0 (-1) 1 (Acc.mk "BUY" 25 []).
Proof.
  assert (Hrun : movingAverageAnalysis (Some 0) (Some (-1)) 1 (Acc.mk "BUY" 25 [])
                 = Acc.mk "BUY" 25 []).
  { unfold movingAverageAnalysis, truthy. settle. reflexivity. }
  assert (Hcond : trend_confirmed 0 (-1) 1 (Acc.mk "BUY" 25 [])).
  { left. repeat split; try lra. }
  split; [exact Hrun|]. split; [exact Hcond|].
  unfold ma_step_as_specified. rewrite Hrun. intros [Hiff _].
  apply (adds_confirmation_irrefl (Acc.mk "BUY" 25 [])).
  apply Hiff. exact Hcond.
Qed.

(** ** Flat closes *)

Section Flat.

Variable data : list Candle.
Variable c : R.
Hypothesis data_flat : forall x, In x data -> close x = c.

Lemma close_at_flat (i : nat) :
  (i < length data)%nat -> close (at_index data i) = c.
Proof.
  intros H. apply data_flat. unfold at_index. apply nth_In. exact H.
Qed.

Lemma rsi_step_flat (acc : R * R) (i : nat) :
  (1 <= i)%nat -> (i + 1 <= length data)%nat ->
  TechnicalAnalysis.rsi_step data acc i = acc.
Proof.
  intros H1 H2. destruct acc as [gains losses].
  unfold TechnicalAnalysis.rsi_step.
  rewrite !close_at_flat by lia.
  replace (c - c) with 0 by lra.
  replace (Rgtb 0 0) with false by (symmetry; apply Rgtb_false; lra).
  rewrite Rabs_R0, Rplus_0_r. reflexivity.
Qed.

Lemma rsi_fold_flat (l : list nat) (acc : R * R) :
  (forall i, In i l -> (1 <= i)%nat /\ (i + 1 <= length data)%nat) ->
  fold_left (TechnicalAnalysis.rsi_step data) l acc = acc.
Proof.
  induction l as [|i l IH]; intros H; [reflexivity|].
  simpl. destruct (H i (or_introl eq_refl)) as [H1 H2].
  rewrite rsi_step_flat by assumption.
  apply IH. intros j Hj. apply H. right. exact Hj.
Qed.

Lemma rsi_sums_flat (period : nat) :
  (period + 1 <= length data)%nat ->
  TechnicalAnalysis.rsi_sums data period = (0, 0).
Proof.
  intros H. unfold TechnicalAnalysis.rsi_sums. apply rsi_fold_flat.
  intros i Hi. apply in_seq in Hi. lia.
Qed.

Lemma calculateRSI_flat (period : nat) :
  (period + 1 <= length data)%nat ->
  TechnicalAnalysis.calculateRSI data period = Some 100.
Proof.
  intros H. rewrite (calculateRSI_value data period H).
  rewrite (rsi_sums_flat period H). cbv zeta. simpl fst. simpl snd.
  replace (is_zero (0 / num period)) with true; [reflexivity|].
  symmetry. apply is_zero_true. unfold Rdiv. apply Rmult_0_l.
Qed.

End Flat.

Lemma rsiAnalysis_overbought (r : R) (st : Acc.t) :
  r > 75 -> Acc.signal (rsiAnalysis r st) = "STRONG_SELL"%string.
Proof.
  intros H. unfold rsiAnalysis. settle. reflexivity.
Qed.

(** C8: on at least 50 candles with one and the same close the loop of the
    oscillator leaves both sums at zero, so the zero-average-loss branch is
    taken and the oscillator is 100, on the sequence itself and on the window
    the cache keeps; the signal synthesized from the refreshed cache is
    STRONG_SELL. *)
Theorem flat_closes_strong_sell (data : list Candle) (c now : R)
    (cache : Cache.t) :
  (50 <= length data)%nat -> (forall x, In x data -> close x = c) ->
  TechnicalAnalysis.rsi_sums data 14 = (0, 0)
  /\ is_zero (snd (TechnicalAnalysis.rsi_sums data 14) / num 14) = true
  /\ TechnicalAnalysis.calculateRSI data 14 = Some 100
  /\ rsi (Cache.indicators (fetchGoldData now data cache)) = Some 100
  /\ Signal.signal (generateSignal (fetchGoldData now data cache))
     = "STRONG_SELL"%string.
Proof.
  intros Hlen Hflat.
  assert (Hs : TechnicalAnalysis.rsi_sums data 14 = (0, 0))
    by (apply (rsi_sums_flat data c Hflat); lia).
  split; [exact Hs|]. split.
  { rewrite Hs. simpl snd. apply is_zero_true. unfold Rdiv. apply Rmult_0_l. }
  split; [apply (calculateRSI_flat data c Hflat); lia|].
  set (prices := slice_last 100 data).
  assert (Hplen : (50 <= length prices)%nat).
  { unfold prices. rewrite length_slice_last by lia. lia. }
  assert (Hpflat : forall x, In x prices -> close x = c).
  { intros x Hx. apply Hflat. apply (In_slice_last 100). exact Hx. }
  assert (Hfetch : rsi (Cache.indicators (fetchGoldData now data cache))
                   = Some 100
                   /\ Cache.prices (fetchGoldData now data cache) = prices).
  { unfold fetchGoldData. fold prices.
    replace (20 <=? length prices)%nat with true
      by (symmetry; apply Nat.leb_le; lia).
    simpl. split; [|reflexivity].
    apply (calculateRSI_flat prices c Hpflat). lia. }
  destruct Hfetch as [Hrsi Hprices].
  split; [exact Hrsi|].
  rewrite (generateSignal_run _ 100 Hrsi).
  - simpl. rewrite bollingerAnalysis_signal, movingAverageAnalysis_signal.
    apply rsiAnalysis_overbought. lra.
  - lra.
  - rewrite Hprices. intros E. rewrite E in Hplen. simpl in Hplen. lia.
Qed.

Lemma flat_closes_strong_sell_witness :
  (50 <= length (flat 1900 60))%nat
  /\ (forall x, In x (flat 1900 60) -> close x = 1900)
  /\ TechnicalAnalysis.calculateRSI (flat 1900 60) 14 = Some 100
  /\ Signal.signal (generateSignal (fetchGoldData 0 (flat 1900 60) marketDataCache))
     = "STRONG_SELL"%string.
Proof.
  assert (Hlen : (50 <= length (flat 1900 60))%nat)
    by (unfold flat; rewrite repeat_length; lia).
  assert (Hflat : forall x, In x (flat 1900 60) -> close x = 1900).
  { intros x Hx. apply repeat_spec in Hx. rewrite Hx. reflexivity. }
  split; [exact Hlen|]. split; [exact Hflat|].
  destruct (flat_closes_strong_sell (flat 1900 60) 1900 0 marketDataCache
              Hlen Hflat) as (_ & _ & H3 & _ & H5).
  split; assumption.
Defined.

(** ** An oscillator of exactly zero *)

Lemma generateSignal_zero_rsi (cache : Cache.t) :
  rsi (Cache.indicators cache) = Some 0 -> generateSignal cache = noData.
Proof.
  intros H. unfold generateSignal. rewrite H. unfold truthy.
  replace (is_zero 0) with true by (symmetry; apply is_zero_true; reflexivity).
  reflexivity.
Qed.

Lemma rsi_sums_falling : TechnicalAnalysis.rsi_sums falling 14 = (0, 13).
Proof.
  unfold TechnicalAnalysis.rsi_sums. cbn [seq fold_left].
  unfold TechnicalAnalysis.rsi_step. simpl.
  repeat (settle; cbv iota beta).
  repeat match goal with
         | |- context [Rabs ?x] =>
             first [ replace (Rabs x) with 1 by (rewrite Rabs_left; lra)
                   | replace (Rabs x) with 0
                       by (replace x with 0 by lra; rewrite Rabs_R0; lra) ]
         end.
  f_equal; lra.
Qed.

Lemma calculateRSI_falling : TechnicalAnalysis.calculateRSI falling 14 = Some 0.
Proof.
  rewrite calculateRSI_value by (simpl; lia).
  rewrite rsi_sums_falling. cbv zeta. simpl fst. simpl snd.
  change (num 14) with 14.
  replace (is_zero (13 / 14)) with false
    by (symmetry; apply is_zero_false; lra).
  f_equal. field.
Qed.

(** C1, the code at the scenario of the claim: the sums of the loop are 0 and
    13, the oscillator is exactly 0, and the synthesizer, whose first test
    [!marketDataCache.indicators.rsi] takes the number 0 for a missing value,
    answers NO_DATA with confidence 0 instead of STRONG_BUY. *)
Theorem oversold_zero_reports_no_data :
  TechnicalAnalysis.rsi_sums falling 14 = (0, 13)
  /\ TechnicalAnalysis.calculateRSI falling 14 = Some 0
  /\ rsi (Cache.indicators (fetchGoldData 0 falling marketDataCache)) = Some 0
  /\ Signal.signal (generateSignal (fetchGoldData 0 falling marketDataCache))
     = "NO_DATA"%string
  /\ Signal.confidence (generateSignal (fetchGoldData 0 falling marketDataCache))
     = 0%Z.
Proof.
  split; [exact rsi_sums_falling|]. split; [exact calculateRSI_falling|].
  assert (H : rsi (Cache.indicators (fetchGoldData 0 falling marketDataCache))
              = Some 0).
  { unfold fetchGoldData.
    change (slice_last 100 falling) with falling.
    change (20 <=? length falling)%nat with true. cbv iota.
    cbn [Cache.indicators rsi]. exact calculateRSI_falling. }
  split; [exact H|].
  rewrite (generateSignal_zero_rsi _ H). split; reflexivity.
Qed.

(** ** A zero moving average from candle data *)

Lemma calculateSMA_zeroAverage_20 :
  TechnicalAnalysis.calculateSMA zeroAverage 20 = Some 0.
Proof.
  unfold TechnicalAnalysis.calculateSMA.
  change (length zeroAverage <? 20)%nat with false. cbv iota zeta.
  unfold sum_close. simpl. f_equal. change (num 20) with 20. lra.
Qed.

Lemma calculateSMA_zeroAverage_50 :
  TechnicalAnalysis.calculateSMA zeroAverage 50 = Some (-1).
Proof.
  unfold TechnicalAnalysis.calculateSMA.
  change (length zeroAverage <? 50)%nat with false. cbv iota zeta.
  unfold sum_close. simpl. f_equal. change (num 50) with 50. lra.
Qed.

Lemma rsi_sums_zeroAverage : TechnicalAnalysis.rsi_sums zeroAverage 14 = (3, 7).
Proof.
  unfold TechnicalAnalysis.rsi_sums. cbn [seq fold_left].
  unfold TechnicalAnalysis.rsi_step. simpl.
  repeat (settle; cbv iota beta).
  repeat match goal with
         | |- context [Rabs ?x] =>
             first [ replace (Rabs x) with 1 by (rewrite Rabs_left; lra)
                   | replace (Rabs x) with 0
                       by (replace x with 0 by lra; rewrite Rabs_R0; lra) ]
         end.
  f_equal; lra.
Qed.

Lemma calculateRSI_zeroAverage :
  TechnicalAnalysis.calculateRSI zeroAverage 14 = Some 30.
Proof.
  rewrite calculateRSI_value by (simpl; lia).
  rewrite rsi_sums_zeroAverage. cbv zeta. simpl fst. simpl snd.
  change (num 14) with 14.
  replace (is_zero (7 / 14)) with false
    by (symmetry; apply is_zero_false; lra).
  f_equal. field.
Qed.

(** That state comes out of the refresh of the
    cache on [zeroAverage]: averages 0 and -1, oscillator 30, price 1; the
    signal is BUY with confidence 25, the 15 of the trend confirmation are
    not added. *)
Lemma zero_average_reached :
  let cache := fetchGoldData 0 zeroAverage marketDataCache in
  sma20 (Cache.indicators cache) = Some 0
  /\ sma50 (Cache.indicators cache) = Some (-1)
  /\ rsi (Cache.indicators cache) = Some 30
  /\ bollinger (Cache.indicators cache) = None
  /\ Signal.price (generateSignal cache) = Some 1
  /\ Signal.signal (generateSignal cache) = "BUY"%string
  /\ Signal.confidence (generateSignal cache) = 25%Z
  /\ Signal.reasons (generateSignal cache) = Some ["RSI low (30.0)"%string].
Proof.
  intros cache.
  assert (Hc : cache =
    {| Cache.prices := zeroAverage;
       Cache.indicators :=
         {| sma20 := TechnicalAnalysis.calculateSMA zeroAverage 20;
            sma50 := TechnicalAnalysis.calculateSMA zeroAverage 50;
            ema12 := TechnicalAnalysis.calculateEMA zeroAverage 12;
            rsi := TechnicalAnalysis.calculateRSI zeroAverage 14;
            bollinger :=
              TechnicalAnalysis.calculateBollingerBands zeroAverage 20 2 |};
       Cache.patterns := PatternRecognition.detectPatterns zeroAverage;
       Cache.lastUpdate := Some 0;
       Cache.source := Some "Yahoo Finance"%string |}) by reflexivity.
  assert (Hbb : TechnicalAnalysis.calculateBollingerBands zeroAverage 20 2 = None).
  { unfold TechnicalAnalysis.calculateBollingerBands.
    rewrite calculateSMA_zeroAverage_20.
    change (length zeroAverage <? 20)%nat with false. cbv iota.
    replace (is_zero 0) with true by (symmetry; apply is_zero_true; reflexivity).
    reflexivity. }
  assert (H20 : sma20 (Cache.indicators cache) = Some 0)
    by (rewrite Hc; exact calculateSMA_zeroAverage_20).
  assert (H50 : sma50 (Cache.indicators cache) = Some (-1))
    by (rewrite Hc; exact calculateSMA_zeroAverage_50).
  assert (Hrsi : rsi (Cache.indicators cache) = Some 30)
    by (rewrite Hc; exact calculateRSI_zeroAverage).
  assert (Hb : bollinger (Cache.indicators cache) = None)
    by (rewrite Hc; exact Hbb).
  assert (Hp : Cache.prices cache = zeroAverage) by (rewrite Hc; reflexivity).
  repeat (split; [assumption|]).
  rewrite (generateSignal_run cache 30 Hrsi) by (rewrite ?Hp; (lra || discriminate)).
  cbn [Signal.price Signal.signal Signal.confidence Signal.reasons].
  rewrite H20, H50, Hb, Hp.
  change (close (at_index zeroAverage (length zeroAverage - 1))) with 1.
  unfold rsiAnalysis. settle. rewrite toFixed1_30.
  unfold bollingerAnalysis, movingAverageAnalysis, truthy.
  settle. simpl. repeat split.
Qed.

(** C7, the code at a zero average.  The refresh of the cache on
    [zeroAverage] gives a short average of 0, a long average of -1, an
    oscillator of 30 and a price of 1; the oscillator rule sets BUY with
    confidence 25.  Both averages are available and price > MA20 > MA50 on a
    BUY label, so the step should add 15 and a reason; but the test
    [sma20 && sma50] takes the number 0 for a missing average, the step
    leaves the state as it is, and the signal is BUY with confidence 25 and
    the one reason of the oscillator. *)
Theorem zero_average_skips_confirmation :
  let cache := fetchGoldData 0 zeroAverage marketDataCache in
  let st := rsiAnalysis 30 (Acc.mk "HOLD" 0 []) in
  sma20 (Cache.indicators cache) = Some 0
  /\ sma50 (Cache.indicators cache) = Some (-1)
  /\ rsi (Cache.indicators cache) = Some 30
  /\ close (at_index (Cache.prices cache) (length (Cache.prices cache) - 1)) = 1
  /\ Acc.signal st = "BUY"%string
  /\ Acc.confidence st = 25%Z
  /\ trend_confirmed 0 (-1) 1 st
  /\ movingAverageAnalysis (Some 0) (Some (-1)) 1 st = st
  /\ ~ ma_step_as_specified 0 (-1) 1 st
  /\ Signal.signal (generateSignal cache) = "BUY"%string
  /\ Signal.confidence (generateSignal cache) = 25%Z
  /\ Signal.reasons (generateSignal cache) = Some ["RSI low (30.0)"%string].
Proof.
  intros cache st.
  destruct zero_average_reached as (H20 & H50 & Hrsi & _ & _ & Hs & Hc & Hr).
  fold cache in H20, H50, Hrsi, Hs, Hc, Hr.
  assert (Hst : st = Acc.mk "BUY" 25 ["RSI low (30.0)"%string]).
  { unfold st, rsiAnalysis. settle. rewrite toFixed1_30. reflexivity. }
  assert (Hrun : movingAverageAnalysis (Some 0) (Some (-1)) 1 st = st).
  { unfold movingAverageAnalysis, truthy. settle. reflexivity. }
  assert (Hcond : trend_confirmed 0 (-1) 1 st).
  { left. rewrite Hst. repeat split; lra. }
  split; [exact H20|]. split; [exact H50|]. split; [exact Hrsi|].
  split; [reflexivity|].
  split; [rewrite Hst; reflexivity|]. split; [rewrite Hst; reflexivity|].
  split; [exact Hcond|]. split; [exact Hrun|].
  split; [|split; [exact Hs | split; [exact Hc | exact Hr]]].
  unfold ma_step_as_specified. rewrite Hrun. intros [Hiff _].
  apply (adds_confirmation_irrefl st). apply Hiff. exact Hcond.
Qed.

(** * Further properties of the code *)

(** ** Moving averages *)

Lemma slice_last_app {A : Type} (n : nat) (older recent : list A) :
  (1 <= n <= length recent)%nat ->
  slice_last n (older ++ recent) = slice_last n recent.
Proof.
  intros H. destruct n as [|n]; [lia|]. unfold slice_last.
  rewrite length_app, skipn_app.
  rewrite skipn_all2 by lia. simpl app.
  f_equal. lia.
Qed.

Lemma slice_last_all {A : Type} (l : list A) :
  slice_last (length l) l = l.
Proof.
  unfold slice_last. destruct (length l) eqn:E.
  - reflexivity.
  - rewrite Nat.sub_diag. reflexivity.
Qed.

(** X2: the simple moving average looks at the last [period] candles only:
    older candles in front of them do not change it. *)
Theorem sma_trailing_window (older recent : list Candle) (period : nat) :
  (1 <= period)%nat -> (period <= length recent)%nat ->
  TechnicalAnalysis.calculateSMA (older ++ recent) period
  = TechnicalAnalysis.calculateSMA recent period.
Proof.
  intros Hp Hlen. unfold TechnicalAnalysis.calculateSMA.
  rewrite slice_last_app by lia.
  replace (length (older ++ recent) <? period)%nat with false
    by (symmetry; apply Nat.ltb_ge; rewrite length_app; lia).
  replace (length recent <? period)%nat with false
    by (symmetry; apply Nat.ltb_ge; exact Hlen).
  reflexivity.
Qed.

Lemma sma_trailing_window_witness :
  (1 <= 20)%nat /\ (20 <= length (alternating 1 3))%nat
  /\ TechnicalAnalysis.calculateSMA (flat 7 5 ++ alternating 1 3) 20
     = TechnicalAnalysis.calculateSMA (alternating 1 3) 20.
Proof.
  split; [lia|]. split; [simpl; lia|].
  apply sma_trailing_window; simpl; lia.
Defined.

(** X4: on exactly [period] candles the exponential moving average is its
    seed, the simple moving average. *)
Theorem ema_seed_is_sma (data : list Candle) (period : nat) :
  (1 <= period)%nat -> length data = period ->
  TechnicalAnalysis.calculateEMA data period
  = TechnicalAnalysis.calculateSMA data period.
Proof.
  intros Hp Hlen. subst period.
  unfold TechnicalAnalysis.calculateEMA, TechnicalAnalysis.calculateSMA.
  rewrite Nat.ltb_irrefl. cbv zeta.
  rewrite firstn_all, skipn_all, slice_last_all. reflexivity.
Qed.

Lemma ema_seed_is_sma_witness :
  (1 <= 20)%nat /\ length (alternating 1 3) = 20%nat
  /\ TechnicalAnalysis.calculateEMA (alternating 1 3) 20
     = TechnicalAnalysis.calculateSMA (alternating 1 3) 20.
Proof.
  split; [lia|]. split; [reflexivity|].
  apply ema_seed_is_sma; [lia | reflexivity].
Defined.

(** ** The oscillator as a ratio *)

Lemma total_upward_nonneg (l : list R) : 0 <= total (map upward l).
Proof.
  induction l as [|x l IH]; simpl; [lra|].
  unfold upward at 1. pose proof (Rmax_r x 0). lra.
Qed.

Lemma total_downward_nonneg (l : list R) : 0 <= total (map downward l).
Proof.
  induction l as [|x l IH]; simpl; [lra|].
  unfold downward at 1. pose proof (Rmax_r (- x) 0). lra.
Qed.

(** The oscillator in terms of the summed gains [G] and losses [L]. *)
Lemma calculateRSI_ratio (data : list Candle) (period : nat) :
  (1 <= period)%nat -> (period + 1 <= length data)%nat ->
  let G := total (map upward (changes data period)) in
  let L := total (map downward (changes data period)) in
  TechnicalAnalysis.calculateRSI data period =
    if is_zero L then Some 100 else Some (100 * G / (G + L)).
Proof.
  intros Hp Hlen G L.
  rewrite (calculateRSI_value data period Hlen), rsi_sums_spec.
  cbv zeta. simpl fst. simpl snd. fold G. fold L.
  pose proof (num_pos period Hp) as Hn.
  pose proof (total_upward_nonneg (changes data period)) as HG. fold G in HG.
  pose proof (total_downward_nonneg (changes data period)) as HL. fold L in HL.
  destruct (is_zero L) eqn:Ez.
  - apply is_zero_true in Ez. rewrite Ez.
    replace (is_zero (0 / num period)) with true; [reflexivity|].
    symmetry. apply is_zero_true. unfold Rdiv. apply Rmult_0_l.
  - apply is_zero_false in Ez.
    replace (is_zero (L / num period)) with false.
    + cbv iota. f_equal. field. repeat split; lra.
    + symmetry. apply is_zero_false. intros E. apply Ez.
      apply Rmult_eq_reg_r with (r := / num period).
      * rewrite Rmult_0_l. exact E.
      * apply Rinv_neq_0_compat. lra.
Qed.

Lemma calculateRSI_zero_iff (data : list Candle) (period : nat) :
  (1 <= period)%nat -> (period + 1 <= length data)%nat ->
  TechnicalAnalysis.calculateRSI data period = Some 0
  <-> total (map upward (changes data period)) = 0
      /\ total (map downward (changes data period)) <> 0.
Proof.
  intros Hp Hlen.
  pose proof (calculateRSI_ratio data period Hp Hlen) as H. cbv zeta in H.
  rewrite H.
  pose proof (total_upward_nonneg (changes data period)) as HG.
  pose proof (total_downward_nonneg (changes data period)) as HL.
  set (G := total (map upward (changes data period))) in *.
  set (L := total (map downward (changes data period))) in *.
  destruct (is_zero L) eqn:Ez.
  - apply is_zero_true in Ez. split.
    + intros E. injection E as E. lra.
    + intros [_ Hne]. contradiction.
  - apply is_zero_false in Ez.
    assert (Hpos : 0 < G + L) by lra.
    split.
    + intros E. injection E as E. split; [|exact Ez].
      assert (E' : 100 * G = 0 * (G + L)).
      { replace (100 * G) with (100 * G / (G + L) * (G + L)) by (field; lra).
        rewrite E. reflexivity. }
      lra.
    + intros [E0 _]. rewrite E0. f_equal. field. lra.
Qed.

Lemma total_upward_zero (l : list R) :
  (forall x, In x l -> x <= 0) -> total (map upward l) = 0.
Proof.
  unfold total. induction l as [|x l IH]; intros H; [reflexivity|].
  simpl. rewrite IH by (intros y Hy; apply H; right; exact Hy).
  unfold upward. rewrite Rmax_right by (apply H; left; reflexivity). lra.
Qed.

Lemma total_downward_pos (l : list R) :
  (exists x, In x l /\ x < 0) -> 0 < total (map downward l).
Proof.
  intros (x & Hin & Hx). induction l as [|y l IH]; [contradiction|].
  pose proof (total_downward_nonneg l) as Hl. unfold total in *. simpl.
  destruct Hin as [-> | Hin].
  - unfold downward at 1. rewrite Rmax_left by lra. lra.
  - pose proof (IH Hin) as Hpos.
    unfold downward at 1. pose proof (Rmax_r (- y) 0). lra.
Qed.

(** X6: a window in which no close rises and at least one close falls has an
    oscillator of exactly 0: if none of the last [period] close-to-close
    changes is positive and one of them is negative, [calculateRSI] returns
    the number 0. *)
Theorem rsi_zero_without_gain (data : list Candle) (period : nat) :
  (1 <= period)%nat -> (period + 1 <= length data)%nat ->
  (forall x, In x (changes data period) -> x <= 0) ->
  (exists x, In x (changes data period) /\ x < 0) ->
  TechnicalAnalysis.calculateRSI data period = Some 0.
Proof.
  intros Hp Hlen Hup Hdown.
  apply (calculateRSI_zero_iff data period Hp Hlen). split.
  - apply total_upward_zero. exact Hup.
  - pose proof (total_downward_pos _ Hdown). lra.
Qed.

Lemma changes_falling :
  changes falling 14 = [-1; -1; -1; -1; -1; -1; -1; -1; -1; -1; -1; -1; -1; 0].
Proof.
  unfold changes. simpl. repeat (f_equal; [lra|]). f_equal. lra.
Qed.

Lemma falling_no_gain :
  (forall x, In x (changes falling 14) -> x <= 0)
  /\ (exists x, In x (changes falling 14) /\ x < 0).
Proof.
  rewrite changes_falling. split.
  - intros x Hx. simpl in Hx.
    repeat (destruct Hx as [<- | Hx]; [lra|]). contradiction.
  - exists (-1). split; [left; reflexivity | lra].
Qed.

Lemma rsi_zero_without_gain_witness :
  (1 <= 14)%nat /\ (14 + 1 <= length falling)%nat
  /\ (forall x, In x (changes falling 14) -> x <= 0)
  /\ (exists x, In x (changes falling 14) /\ x < 0)
  /\ TechnicalAnalysis.calculateRSI falling 14 = Some 0.
Proof.
  destruct falling_no_gain as [Hup Hdown].
  assert (Hlen : (14 + 1 <= length falling)%nat) by (simpl; lia).
  split; [lia|]. split; [exact Hlen|]. split; [exact Hup|].
  split; [exact Hdown|].
  exact (rsi_zero_without_gain falling 14 ltac:(lia) Hlen Hup Hdown).
Defined.

Lemma at_index_app_recent (older recent : list Candle) (k : nat) :
  (k <= length recent)%nat ->
  at_index (older ++ recent) (length (older ++ recent) - k)
  = at_index recent (length recent - k).
Proof.
  intros H. unfold at_index. rewrite length_app.
  rewrite app_nth2 by lia. f_equal. lia.
Qed.

Lemma rsi_step_app (older recent : list Candle) (acc : R * R) (i : nat) :
  (i + 1 <= length recent)%nat ->
  TechnicalAnalysis.rsi_step (older ++ recent) acc i
  = TechnicalAnalysis.rsi_step recent acc i.
Proof.
  intros H. unfold TechnicalAnalysis.rsi_step.
  rewrite (at_index_app_recent older recent i) by lia.
  replace (length (older ++ recent) - i - 1)%nat
    with (length (older ++ recent) - (i + 1))%nat by lia.
  replace (length recent - i - 1)%nat with (length recent - (i + 1))%nat by lia.
  rewrite (at_index_app_recent older recent (i + 1)) by lia.
  reflexivity.
Qed.

Lemma rsi_fold_app (older recent : list Candle) (l : list nat) (acc : R * R) :
  (forall i, In i l -> (i + 1 <= length recent)%nat) ->
  fold_left (TechnicalAnalysis.rsi_step (older ++ recent)) l acc
  = fold_left (TechnicalAnalysis.rsi_step recent) l acc.
Proof.
  revert acc. induction l as [|i l IH]; intros acc H; [reflexivity|].
  simpl. rewrite rsi_step_app by (apply H; left; reflexivity).
  apply IH. intros j Hj. apply H. right. exact Hj.
Qed.

(** X7: the oscillator looks at the last [period + 1] candles only: older
    candles in front of them do not change it. *)
Theorem rsi_trailing_window (older recent : list Candle) (period : nat) :
  (1 <= period)%nat -> (period + 1 <= length recent)%nat ->
  TechnicalAnalysis.calculateRSI (older ++ recent) period
  = TechnicalAnalysis.calculateRSI recent period.
Proof.
  intros _ Hlen. unfold TechnicalAnalysis.calculateRSI.
  replace (length (older ++ recent) <? period + 1)%nat with false
    by (symmetry; apply Nat.ltb_ge; rewrite length_app; lia).
  replace (length recent <? period + 1)%nat with false
    by (symmetry; apply Nat.ltb_ge; exact Hlen).
  unfold TechnicalAnalysis.rsi_sums.
  rewrite rsi_fold_app; [reflexivity|].
  intros i Hi. apply in_seq in Hi. lia.
Qed.

Lemma rsi_trailing_window_witness :
  (1 <= 14)%nat /\ (14 + 1 <= length falling)%nat
  /\ TechnicalAnalysis.calculateRSI (flat 7 30 ++ falling) 14
     = TechnicalAnalysis.calculateRSI falling 14.
Proof.
  split; [lia|]. split; [simpl; lia|].
  apply rsi_trailing_window; simpl; lia.
Defined.

(** ** More on the volatility bands *)

(** X8: the bands are absent in exactly two cases: the sequence is shorter
    than the period, or the moving average of the window is exactly zero. *)
Theorem bands_absent_iff (data : list Candle) (period : nat) (multiplier : R) :
  (1 <= period)%nat ->
  TechnicalAnalysis.calculateBollingerBands data period multiplier = None
  <-> (length data < period)%nat
      \/ TechnicalAnalysis.calculateSMA data period = Some 0.
Proof.
  intros _. unfold TechnicalAnalysis.calculateBollingerBands.
  destruct (length data <? period)%nat eqn:E.
  - apply Nat.ltb_lt in E. split; auto.
  - apply Nat.ltb_ge in E.
    destruct (TechnicalAnalysis.calculateSMA data period) as [sma|] eqn:Es.
    + destruct (is_zero sma) eqn:Ez.
      * apply is_zero_true in Ez. subst sma. split; auto.
      * apply is_zero_false in Ez. split; [discriminate|].
        intros [H | H]; [lia|]. injection H as H. contradiction.
    + unfold TechnicalAnalysis.calculateSMA in Es.
      replace (length data <? period)%nat with false in Es
        by (symmetry; apply Nat.ltb_ge; exact E).
      discriminate.
Qed.

Lemma bands_absent_iff_witness :
  (1 <= 20)%nat
  /\ TechnicalAnalysis.calculateBollingerBands zeroAverage 20 2 = None.
Proof.
  split; [lia|].
  apply (bands_absent_iff zeroAverage 20 2); [lia|].
  right. exact calculateSMA_zeroAverage_20.
Defined.

(** ** More on the pattern detector *)

Lemma seq_sorted (a n : nat) : StronglySorted lt (seq a n).
Proof.
  revert a. induction n as [|n IH]; intros a; simpl; constructor.
  - apply IH.
  - apply Forall_forall. intros x Hx. apply in_seq in Hx. lia.
Qed.

Lemma filter_sorted (f : nat -> bool) (l : list nat) :
  StronglySorted lt l -> StronglySorted lt (filter f l).
Proof.
  induction 1 as [|a l Hs IH Hall]; simpl; [constructor|].
  destruct (f a); [|exact IH].
  constructor; [exact IH|].
  apply Forall_forall. intros x Hx. apply filter_In in Hx.
  rewrite Forall_forall in Hall. apply Hall. tauto.
Qed.

Lemma index_of_extrema (g : nat -> R) (l : list nat) :
  map index (map (fun i => mkExtremum i (g i)) l) = l.
Proof.
  rewrite map_map. simpl. apply map_id.
Qed.

(** X11: the scanning loop finds exactly the interior strict local maxima of
    the highs and the interior strict local minima of the lows, each with its
    position and its price, in the order of the positions. *)
Theorem scan_finds_extrema (data : list Candle) :
  (forall e, In e (fst (PatternRecognition.scan data)) <->
     (1 <= index e)%nat /\ (index e + 1 < length data)%nat
     /\ price e = high (at_index data (index e))
     /\ high (at_index data (index e)) > high (at_index data (index e - 1))
     /\ high (at_index data (index e)) > high (at_index data (index e + 1)))
  /\ (forall e, In e (snd (PatternRecognition.scan data)) <->
        (1 <= index e)%nat /\ (index e + 1 < length data)%nat
        /\ price e = low (at_index data (index e))
        /\ low (at_index data (index e)) < low (at_index data (index e - 1))
        /\ low (at_index data (index e)) < low (at_index data (index e + 1)))
  /\ StronglySorted lt (map index (fst (PatternRecognition.scan data)))
  /\ StronglySorted lt (map index (snd (PatternRecognition.scan data))).
Proof.
  rewrite scan_spec. cbn [fst snd]. unfold localHighs, localLows, interior.
  split; [|split; [|split]].
  - intros [i p]. cbn [index price]. rewrite in_map_iff. split.
    + intros (j & Hj & Hin). injection Hj as Hi Hp. subst j p.
      apply filter_In in Hin. destruct Hin as [Hseq Hhigh].
      apply in_seq in Hseq. unfold is_local_high in Hhigh.
      apply andb_prop in Hhigh. destruct Hhigh as [H1 H2].
      apply Rgtb_true in H1. apply Rgtb_true in H2.
      repeat split; try lia; try reflexivity; assumption.
    + intros (H1 & H2 & Hp & Hl & Hr). exists i. split; [rewrite Hp; reflexivity|].
      apply filter_In. split; [apply in_seq; lia|].
      unfold is_local_high. apply andb_true_intro.
      split; apply Rgtb_true; assumption.
  - intros [i p]. cbn [index price]. rewrite in_map_iff. split.
    + intros (j & Hj & Hin). injection Hj as Hi Hp. subst j p.
      apply filter_In in Hin. destruct Hin as [Hseq Hlow].
      apply in_seq in Hseq. unfold is_local_low in Hlow.
      apply andb_prop in Hlow. destruct Hlow as [H1 H2].
      apply Rltb_true in H1. apply Rltb_true in H2.
      repeat split; try lia; try reflexivity; assumption.
    + intros (H1 & H2 & Hp & Hl & Hr). exists i. split; [rewrite Hp; reflexivity|].
      apply filter_In. split; [apply in_seq; lia|].
      unfold is_local_low. apply andb_true_intro.
      split; apply Rltb_true; assumption.
  - rewrite index_of_extrema. apply filter_sorted, seq_sorted.
  - rewrite index_of_extrema. apply filter_sorted, seq_sorted.
Qed.

Lemma emitted_shape (make : R -> Pattern.t) (ext : list Extremum) :
  emitted make ext = [] \/ exists avgPrice, emitted make ext = [make avgPrice].
Proof.
  unfold emitted. destruct (2 <=? length ext)%nat; [|left; reflexivity].
  cbv zeta. destruct (div_ltb _ _ _); [|left; reflexivity].
  right. eexists. reflexivity.
Qed.

Lemma detectPatterns_shape_aux (data : list Candle) :
  exists tops bottoms,
    PatternRecognition.detectPatterns data = tops ++ bottoms
    /\ (tops = [] \/ exists a, tops = [PatternRecognition.doubleTop a])
    /\ (bottoms = [] \/ exists a, bottoms = [PatternRecognition.doubleBottom a]).
Proof.
  unfold PatternRecognition.detectPatterns.
  destruct (length data <? 20)%nat.
  - exists [], []. repeat split; auto.
  - cbv zeta. rewrite app_nil_l, detectDoubleTopBottom_split.
    eexists. eexists. split; [reflexivity|].
    split; apply emitted_shape.
Qed.

(** X12: the detector returns at most two patterns: at most one DOUBLE_TOP,
    followed by at most one DOUBLE_BOTTOM. *)
Theorem detectPatterns_shape (data : list Candle) :
  exists tops bottoms,
    PatternRecognition.detectPatterns data = tops ++ bottoms
    /\ (length tops <= 1)%nat /\ (length bottoms <= 1)%nat
    /\ (forall p, In p tops -> Pattern.type p = "DOUBLE_TOP"%string)
    /\ (forall p, In p bottoms -> Pattern.type p = "DOUBLE_BOTTOM"%string)
    /\ (length (PatternRecognition.detectPatterns data) <= 2)%nat.
Proof.
  destruct (detectPatterns_shape_aux data) as (tops & bottoms & E & Ht & Hb).
  exists tops, bottoms. rewrite E, length_app.
  destruct Ht as [-> | [a ->]]; destruct Hb as [-> | [b ->]]; simpl;
    repeat split; try lia;
    intros p Hp; simpl in Hp; destruct Hp as [<- | []]; reflexivity.
Qed.

Lemma emitted_complete (make : R -> Pattern.t) (ext : list Extremum)
    (h1 h2 : Extremum) :
  slice_last 2 ext = [h1; h2] ->
  (price h1 + price h2) / 2 <> 0 ->
  relDiff (price h1) (price h2) < 0.01 ->
  emitted make ext = [make ((price h1 + price h2) / 2)].
Proof.
  intros Hs Hnz Hr. unfold emitted.
  assert (Hlen : (2 <= length ext)%nat).
  { apply (f_equal (@length Extremum)) in Hs.
    rewrite length_slice_last in Hs by lia.
    change (length [h1; h2]) with 2%nat in Hs. lia. }
  replace (2 <=? length ext)%nat with true
    by (symmetry; apply Nat.leb_le; exact Hlen).
  rewrite Hs. cbn [nth]. unfold div_ltb.
  apply is_zero_false in Hnz. rewrite Hnz.
  apply Rltb_true in Hr. unfold relDiff in Hr. rewrite Hr. reflexivity.
Qed.

Lemma detectPatterns_long (data : list Candle) :
  (20 <= length data)%nat ->
  PatternRecognition.detectPatterns data =
    emitted PatternRecognition.doubleTop (localHighs (slice_last 20 data))
    ++ emitted PatternRecognition.doubleBottom (localLows (slice_last 20 data)).
Proof.
  intros H. unfold PatternRecognition.detectPatterns.
  replace (length data <? 20)%nat with false
    by (symmetry; apply Nat.ltb_ge; exact H).
  cbv zeta. rewrite app_nil_l. apply detectDoubleTopBottom_split.
Qed.

(** X13: twin extremes are always reported.  With at least 20 candles, when
    the two most recent local highs of the last 20 have the same price, not
    zero, a DOUBLE_TOP with that price as resistance is among the detected
    patterns; likewise two equal most recent local lows give a DOUBLE_BOTTOM
    with that price as support. *)
Theorem twin_extremes_emit (data : list Candle) :
  (20 <= length data)%nat ->
  let recent := slice_last 20 data in
  (forall h1 h2,
     slice_last 2 (localHighs recent) = [h1; h2] ->
     price h1 = price h2 -> price h1 <> 0 ->
     In (PatternRecognition.doubleTop (price h1))
        (PatternRecognition.detectPatterns data))
  /\ (forall l1 l2,
        slice_last 2 (localLows recent) = [l1; l2] ->
        price l1 = price l2 -> price l1 <> 0 ->
        In (PatternRecognition.doubleBottom (price l1))
           (PatternRecognition.detectPatterns data)).
Proof.
  intros Hlong recent. rewrite (detectPatterns_long data Hlong). fold recent.
  assert (Htwin : forall a, a <> 0 ->
            (a + a) / 2 = a /\ (a + a) / 2 <> 0 /\ relDiff a a < 0.01).
  { intros a Ha. assert (E : (a + a) / 2 = a) by lra.
    split; [exact E|]. split; [rewrite E; exact Ha|].
    unfold relDiff. replace (a - a) with 0 by lra. rewrite Rabs_R0.
    unfold Rdiv at 1. rewrite Rmult_0_l. lra. }
  split.
  - intros h1 h2 Hs Heq Hnz. apply in_or_app. left.
    destruct (Htwin (price h1) Hnz) as (E & Havg & Hrel).
    rewrite (emitted_complete _ _ h1 h2 Hs) by (rewrite <- Heq; assumption).
    rewrite <- Heq, E. left. reflexivity.
  - intros l1 l2 Hs Heq Hnz. apply in_or_app. right.
    destruct (Htwin (price l1) Hnz) as (E & Havg & Hrel).
    rewrite (emitted_complete _ _ l1 l2 Hs) by (rewrite <- Heq; assumption).
    rewrite <- Heq, E. left. reflexivity.
Qed.

Lemma twin_extremes_emit_witness :
  (20 <= length twoPeaks)%nat
  /\ In (PatternRecognition.doubleTop 12)
        (PatternRecognition.detectPatterns twoPeaks).
Proof.
  assert (H : (20 <= length twoPeaks)%nat) by (simpl; lia).
  split; [exact H|].
  apply (proj1 (twin_extremes_emit twoPeaks H)
           (mkExtremum 5 12) (mkExtremum 10 12)).
  - change (slice_last 20 twoPeaks) with twoPeaks.
    rewrite localHighs_twoPeaks. reflexivity.
  - reflexivity.
  - simpl. lra.
Defined.

(** X14: the detector looks at the last 20 candles only: older candles in
    front of them do not change the patterns. *)
Theorem detectPatterns_trailing_window (older recent : list Candle) :
  (20 <= length recent)%nat ->
  PatternRecognition.detectPatterns (older ++ recent)
  = PatternRecognition.detectPatterns recent.
Proof.
  intros H.
  rewrite !detectPatterns_long by (rewrite ?length_app; lia).
  rewrite slice_last_app by lia. reflexivity.
Qed.

Lemma detectPatterns_trailing_window_witness :
  (20 <= length twoPeaks)%nat
  /\ PatternRecognition.detectPatterns (flat 7 30 ++ twoPeaks)
     = PatternRecognition.detectPatterns twoPeaks.
Proof.
  split; [simpl; lia|].
  apply detectPatterns_trailing_window. simpl. lia.
Defined.

(** ** The refresh of the cache *)

Lemma fetchGoldData_prices (now : R) (data : list Candle) (cache : Cache.t) :
  Cache.prices (fetchGoldData now data cache) = slice_last 100 data.
Proof.
  unfold fetchGoldData. destruct (20 <=? length (slice_last 100 data))%nat;
    reflexivity.
Qed.

Lemma fetchGoldData_long (now : R) (data : list Candle) (cache : Cache.t) :
  (20 <= length data)%nat ->
  fetchGoldData now data cache =
    let prices := slice_last 100 data in
    {| Cache.prices := prices;
       Cache.indicators :=
         {| sma20 := TechnicalAnalysis.calculateSMA prices 20;
            sma50 := TechnicalAnalysis.calculateSMA prices 50;
            ema12 := TechnicalAnalysis.calculateEMA prices 12;
            rsi := TechnicalAnalysis.calculateRSI prices 14;
            bollinger :=
              TechnicalAnalysis.calculateBollingerBands prices 20 2 |};
       Cache.patterns := PatternRecognition.detectPatterns prices;
       Cache.lastUpdate := Some now;
       Cache.source := Some "Yahoo Finance"%string |}.
Proof.
  intros H. unfold fetchGoldData.
  replace (20 <=? length (slice_last 100 data))%nat with true; [reflexivity|].
  symmetry. apply Nat.leb_le. rewrite length_slice_last by lia. lia.
Qed.

Lemma fetchGoldData_short (now : R) (data : list Candle) (cache : Cache.t) :
  (length data < 20)%nat ->
  fetchGoldData now data cache =
    {| Cache.prices := data;
       Cache.indicators := Cache.indicators cache;
       Cache.patterns := Cache.patterns cache;
       Cache.lastUpdate := Some now;
       Cache.source := Some "Yahoo Finance"%string |}.
Proof.
  intros H. unfold fetchGoldData.
  assert (E : slice_last 100 data = data).
  { unfold slice_last. replace (length data - 100)%nat with 0%nat by lia.
    reflexivity. }
  rewrite E.
  replace (20 <=? length data)%nat with false; [reflexivity|].
  symmetry. apply Nat.leb_gt. exact H.
Qed.

(** X15: the refreshed cache holds the most recent candles, at most 100 of
    them, in their order: the fetched sequence is some older candles followed
    by the cached prices. *)
Theorem cache_keeps_most_recent (now : R) (data : list Candle)
    (cache : Cache.t) :
  let prices := Cache.prices (fetchGoldData now data cache) in
  length prices = Nat.min 100 (length data)
  /\ exists older, data = older ++ prices.
Proof.
  cbv zeta. rewrite fetchGoldData_prices. split.
  - apply length_slice_last. lia.
  - exists (firstn (length data - 100) data). unfold slice_last.
    symmetry. apply firstn_skipn.
Qed.

(** X16: a refresh with fewer than 20 candles replaces the prices and keeps
    the indicators and the patterns of the cache it started from, whatever
    candles they were computed on; a signal synthesized after it reports
    those older indicators next to the newest close. *)
Theorem short_refresh_keeps_indicators (now : R) (data : list Candle)
    (cache : Cache.t) :
  (length data < 20)%nat ->
  let cache' := fetchGoldData now data cache in
  Cache.prices cache' = data
  /\ Cache.indicators cache' = Cache.indicators cache
  /\ Cache.patterns cache' = Cache.patterns cache
  /\ (forall r, rsi (Cache.indicators cache) = Some r -> r <> 0 -> data <> [] ->
        Signal.indicators (generateSignal cache') = Some (Cache.indicators cache)
        /\ Signal.price (generateSignal cache')
           = Some (close (at_index data (length data - 1)))).
Proof.
  intros H. cbv zeta. rewrite (fetchGoldData_short now data cache H).
  cbn [Cache.prices Cache.indicators Cache.patterns].
  repeat split.
  - rewrite (generateSignal_run _ r); auto.
  - rewrite (generateSignal_run _ r); auto.
Qed.

Lemma short_refresh_keeps_indicators_witness :
  (length (flat 7 19) < 20)%nat
  /\ Cache.indicators
       (fetchGoldData 1 (flat 7 19) (fetchGoldData 0 zeroAverage marketDataCache))
     = Cache.indicators (fetchGoldData 0 zeroAverage marketDataCache).
Proof.
  assert (H : (length (flat 7 19) < 20)%nat) by (simpl; lia).
  split; [exact H|].
  exact (proj1 (proj2 (short_refresh_keeps_indicators 1 (flat 7 19)
                         (fetchGoldData 0 zeroAverage marketDataCache) H))).
Defined.

(** X17: on a fresh start a refresh with fewer than 20 candles computes no
    indicator, and the signal is NO_DATA with confidence 0, also when there
    are the 15 candles the oscillator needs. *)
Theorem fresh_start_needs_20_candles (now : R) (data : list Candle) :
  (length data < 20)%nat ->
  Cache.indicators (fetchGoldData now data marketDataCache)
    = mkIndicators None None None None None
  /\ generateSignal (fetchGoldData now data marketDataCache) = noData.
Proof.
  intros H. rewrite (fetchGoldData_short now data marketDataCache H).
  split; reflexivity.
Qed.

Lemma fresh_start_needs_20_candles_witness :
  (length (flat 7 19) < 20)%nat
  /\ generateSignal (fetchGoldData 0 (flat 7 19) marketDataCache) = noData.
Proof.
  assert (H : (length (flat 7 19) < 20)%nat) by (simpl; lia).
  split; [exact H|].
  exact (proj2 (fresh_start_needs_20_candles 0 (flat 7 19) H)).
Defined.

Lemma calculateSMA_present (data : list Candle) (period : nat) :
  (exists a, TechnicalAnalysis.calculateSMA data period = Some a)
  <-> (period <= length data)%nat.
Proof.
  unfold TechnicalAnalysis.calculateSMA.
  destruct (length data <? period)%nat eqn:E.
  - apply Nat.ltb_lt in E. split; [intros [a Ha]; discriminate | lia].
  - apply Nat.ltb_ge in E. split; [auto | intros _; eexists; reflexivity].
Qed.

(** X18: a refresh with at least 20 candles does not depend on the cache it
    started from; it fills the short moving average, the exponential moving
    average and the oscillator, and it fills the long moving average exactly
    when there are at least 50 candles. *)
Theorem long_refresh_fills_indicators (now : R) (data : list Candle)
    (cache1 cache2 : Cache.t) :
  (20 <= length data)%nat ->
  let ind := Cache.indicators (fetchGoldData now data cache1) in
  fetchGoldData now data cache1 = fetchGoldData now data cache2
  /\ (exists a, sma20 ind = Some a)
  /\ (exists e, ema12 ind = Some e)
  /\ (exists r, rsi ind = Some r)
  /\ ((exists a, sma50 ind = Some a) <-> (50 <= length data)%nat).
Proof.
  intros H. cbv zeta.
  rewrite (fetchGoldData_long now data cache1 H),
    (fetchGoldData_long now data cache2 H).
  cbv zeta. cbn [Cache.indicators sma20 sma50 ema12 rsi].
  assert (Hl : length (slice_last 100 data) = Nat.min 100 (length data))
    by (apply length_slice_last; lia).
  split; [reflexivity|]. split; [|split; [|split]].
  - apply calculateSMA_present. lia.
  - unfold TechnicalAnalysis.calculateEMA.
    replace (length (slice_last 100 data) <? 12)%nat with false
      by (symmetry; apply Nat.ltb_ge; lia).
    eexists. reflexivity.
  - rewrite calculateRSI_value by lia. cbv zeta.
    destruct (is_zero _); eexists; reflexivity.
  - rewrite calculateSMA_present. lia.
Qed.

Lemma long_refresh_fills_indicators_witness :
  (20 <= length falling)%nat
  /\ fetchGoldData 0 falling marketDataCache
     = fetchGoldData 0 falling (fetchGoldData 0 zeroAverage marketDataCache).
Proof.
  assert (H : (20 <= length falling)%nat) by (simpl; lia).
  split; [exact H|].
  exact (proj1 (long_refresh_fills_indicators 0 falling marketDataCache
                  (fetchGoldData 0 zeroAverage marketDataCache) H)).
Defined.

(** X19: refreshing twice with the same candles at the same time gives the
    same cache as refreshing once. *)
Theorem refresh_idempotent (now : R) (data : list Candle) (cache : Cache.t) :
  fetchGoldData now data (fetchGoldData now data cache)
  = fetchGoldData now data cache.
Proof.
  destruct (Nat.lt_ge_cases (length data) 20) as [H | H].
  - rewrite !(fetchGoldData_short now data _ H). reflexivity.
  - rewrite (fetchGoldData_long now data (fetchGoldData now data cache) H),
      (fetchGoldData_long now data cache H).
    reflexivity.
Qed.

(** ** The rule chain as a whole *)

(** The state after the oscillator rule, from HOLD, 0 and no reason. *)
Lemma rsiAnalysis_cases (r : R) :
  let st := rsiAnalysis r (Acc.mk "HOLD" 0 []) in
  (r < 25 /\ Acc.signal st = "STRONG_BUY"%string
   /\ Acc.confidence st = 40%Z /\ length (Acc.reasons st) = 1%nat)
  \/ (25 <= r < 35 /\ Acc.signal st = "BUY"%string
      /\ Acc.confidence st = 25%Z /\ length (Acc.reasons st) = 1%nat)
  \/ (35 <= r <= 65 /\ st = Acc.mk "HOLD" 0 [])
  \/ (65 < r <= 75 /\ Acc.signal st = "SELL"%string
      /\ Acc.confidence st = 25%Z /\ length (Acc.reasons st) = 1%nat)
  \/ (75 < r /\ Acc.signal st = "STRONG_SELL"%string
      /\ Acc.confidence st = 40%Z /\ length (Acc.reasons st) = 1%nat).
Proof.
  cbv zeta. unfold rsiAnalysis.
  destruct (Rltb r 25) eqn:E1.
  { apply Rltb_true in E1. left. repeat split. exact E1. }
  apply Rltb_false in E1.
  destruct (Rltb r 35) eqn:E2.
  { apply Rltb_true in E2. right. left. repeat split; assumption. }
  apply Rltb_false in E2.
  destruct (Rgtb r 75) eqn:E3.
  { apply Rgtb_true in E3. right. right. right. right. repeat split. lra. }
  apply Rgtb_false in E3.
  destruct (Rgtb r 65) eqn:E4.
  { apply Rgtb_true in E4. right. right. right. left. repeat split; lra. }
  apply Rgtb_false in E4. right. right. left. repeat split; lra.
Qed.

Lemma movingAverageAnalysis_fires (a b : option R) (p : R) (st : Acc.t) :
  movingAverageAnalysis a b p st = st
  \/ (confirmed_by st (movingAverageAnalysis a b p st)
      /\ exists x, a = Some x
                   /\ ((p > x /\ includes "BUY" (Acc.signal st) = true)
                       \/ (p < x /\ includes "SELL" (Acc.signal st) = true))).
Proof.
  unfold movingAverageAnalysis.
  destruct (truthy a && truthy b); [|left; reflexivity].
  destruct a as [x|]; [|left; reflexivity].
  destruct b as [y|]; [|left; reflexivity].
  destruct (Rgtb p x && Rgtb x y && includes "BUY" (Acc.signal st)) eqn:Ebuy.
  - right. apply andb_prop in Ebuy. destruct Ebuy as [E12 E3].
    apply andb_prop in E12. destruct E12 as [E1 _]. apply Rgtb_true in E1.
    split.
    + unfold confirmed_by. simpl. rewrite length_app. simpl.
      repeat split. lia.
    + exists x. split; [reflexivity|]. left. auto.
  - destruct (Rltb p x && Rltb x y && includes "SELL" (Acc.signal st)) eqn:Esell;
      [|left; reflexivity].
    right. apply andb_prop in Esell. destruct Esell as [E12 E3].
    apply andb_prop in E12. destruct E12 as [E1 _]. apply Rltb_true in E1.
    split.
    + unfold confirmed_by. simpl. rewrite length_app. simpl.
      repeat split. lia.
    + exists x. split; [reflexivity|]. right. auto.
Qed.

Lemma bollingerAnalysis_fires (bb : option Bands) (p : R) (st : Acc.t) :
  bollingerAnalysis bb p st = st
  \/ (confirmed_by st (bollingerAnalysis bb p st)
      /\ exists b, bb = Some b
                   /\ ((p < lower b /\ includes "BUY" (Acc.signal st) = true)
                       \/ (p > upper b
                           /\ includes "SELL" (Acc.signal st) = true))).
Proof.
  unfold bollingerAnalysis. destruct bb as [b|]; [|left; reflexivity].
  destruct (Rltb p (lower b) && includes "BUY" (Acc.signal st)) eqn:Ebuy.
  - right. apply andb_prop in Ebuy. destruct Ebuy as [E1 E2].
    apply Rltb_true in E1. split.
    + unfold confirmed_by. simpl. rewrite length_app. simpl.
      repeat split. lia.
    + exists b. split; [reflexivity|]. left. auto.
  - destruct (Rgtb p (upper b) && includes "SELL" (Acc.signal st)) eqn:Esell;
      [|left; reflexivity].
    right. apply andb_prop in Esell. destruct Esell as [E1 E2].
    apply Rgtb_true in E1. split.
    + unfold confirmed_by. simpl. rewrite length_app. simpl.
      repeat split. lia.
    + exists b. split; [reflexivity|]. right. auto.
Qed.

(** X20: the classification is decided by the oscillator alone.  On a cache
    with prices and an oscillator [r] other than 0, the signal is STRONG_BUY
    below 25, BUY from 25 to below 35, HOLD from 35 to 65, SELL above 65 up
    to 75 and STRONG_SELL above 75, whatever the averages, bands and prices
    are. *)
Theorem label_by_oscillator (cache : Cache.t) (r : R) :
  rsi (Cache.indicators cache) = Some r -> r <> 0 ->
  Cache.prices cache <> [] ->
  let label := Signal.signal (generateSignal cache) in
  (r < 25 -> label = "STRONG_BUY"%string)
  /\ (25 <= r < 35 -> label = "BUY"%string)
  /\ (35 <= r <= 65 -> label = "HOLD"%string)
  /\ (65 < r <= 75 -> label = "SELL"%string)
  /\ (75 < r -> label = "STRONG_SELL"%string).
Proof.
  intros Hr Hnz Hp. cbv zeta.
  rewrite (generateSignal_run cache r Hr Hnz Hp). cbn [Signal.signal].
  rewrite bollingerAnalysis_signal, movingAverageAnalysis_signal.
  destruct (rsiAnalysis_cases r)
    as [(H & E & _) | [(H & E & _) | [(H & E) | [(H & E & _) | (H & E & _)]]]];
    rewrite E; repeat split; intros H'; try reflexivity; lra.
Qed.

Lemma label_by_oscillator_witness :
  rsi (Cache.indicators (fetchGoldData 0 zeroAverage marketDataCache)) = Some 30
  /\ 30 <> 0
  /\ Cache.prices (fetchGoldData 0 zeroAverage marketDataCache) <> []
  /\ (25 <= 30 < 35 ->
      Signal.signal (generateSignal (fetchGoldData 0 zeroAverage marketDataCache))
      = "BUY"%string).
Proof.
  assert (Hr : rsi (Cache.indicators (fetchGoldData 0 zeroAverage marketDataCache))
               = Some 30) by exact calculateRSI_zeroAverage.
  assert (Hnz : 30 <> 0) by lra.
  assert (Hp : Cache.prices (fetchGoldData 0 zeroAverage marketDataCache) <> [])
    by discriminate.
  split; [exact Hr|]. split; [exact Hnz|]. split; [exact Hp|].
  exact (proj1 (proj2 (label_by_oscillator _ 30 Hr Hnz Hp))).
Defined.

(** X21: the signal is NO_DATA exactly when the cache has no oscillator
    value, or an oscillator value of exactly 0, or no prices. *)
Theorem no_data_iff (cache : Cache.t) :
  Signal.signal (generateSignal cache) = "NO_DATA"%string
  <-> rsi (Cache.indicators cache) = None
      \/ rsi (Cache.indicators cache) = Some 0
      \/ Cache.prices cache = [].
Proof.
  split.
  - intros H.
    destruct (rsi (Cache.indicators cache)) as [r|] eqn:Hr; [|auto].
    destruct (Req_dec_T r 0) as [-> | Hnz]; [auto|].
    destruct (Cache.prices cache) as [|c l] eqn:Hp; [auto|].
    exfalso. revert H.
    rewrite (generateSignal_run cache r Hr Hnz) by (rewrite Hp; discriminate).
    cbn [Signal.signal].
    rewrite bollingerAnalysis_signal, movingAverageAnalysis_signal.
    destruct (rsiAnalysis_cases r)
      as [(_ & E & _) | [(_ & E & _) | [(_ & E) | [(_ & E & _) | (_ & E & _)]]]];
      rewrite E; simpl; discriminate.
  - unfold generateSignal. intros [H | [H | H]].
    + rewrite H. reflexivity.
    + rewrite H. unfold truthy.
      replace (is_zero 0) with true by (symmetry; apply is_zero_true; reflexivity).
      reflexivity.
    + rewrite H. simpl length. simpl Nat.eqb. rewrite orb_true_r. reflexivity.
Qed.

(** The final state of the rule chain for an oscillator [r]. *)
Lemma rule_chain_cases (r p : R) (a b : option R) (bb : option Bands) :
  let st := bollingerAnalysis bb p
              (movingAverageAnalysis a b p
                 (rsiAnalysis r (Acc.mk "HOLD" 0 []))) in
  (st = Acc.mk "HOLD" 0 [])
  \/ (Acc.signal st <> "HOLD"%string
      /\ ((Acc.confidence st = 25%Z /\ length (Acc.reasons st) = 1%nat)
          \/ (Acc.confidence st = 40%Z
              /\ (1 <= length (Acc.reasons st) <= 2)%nat)
          \/ (Acc.confidence st = 55%Z
              /\ (2 <= length (Acc.reasons st) <= 3)%nat)
          \/ (Acc.confidence st = 70%Z /\ length (Acc.reasons st) = 3%nat))).
Proof.
  cbv zeta.
  set (st1 := rsiAnalysis r (Acc.mk "HOLD" 0 [])).
  set (st2 := movingAverageAnalysis a b p st1).
  set (st3 := bollingerAnalysis bb p st2).
  assert (H2 : st2 = st1 \/ confirmed_by st1 st2).
  { destruct (movingAverageAnalysis_fires a b p st1) as [E | [E _]]; auto. }
  assert (H3 : st3 = st2 \/ confirmed_by st2 st3).
  { destruct (bollingerAnalysis_fires bb p st2) as [E | [E _]]; auto. }
  assert (Hs2 : Acc.signal st2 = Acc.signal st1)
    by apply movingAverageAnalysis_signal.
  assert (Hs3 : Acc.signal st3 = Acc.signal st2)
    by apply bollingerAnalysis_signal.
  destruct (rsiAnalysis_cases r)
    as [(_ & E & Ec & El) | [(_ & E & Ec & El) | [(_ & E)
        | [(_ & E & Ec & El) | (_ & E & Ec & El)]]]];
    fold st1 in E; try fold st1 in Ec; try fold st1 in El.
  3: { left.
       assert (E2 : st2 = st1).
       { destruct (movingAverageAnalysis_fires a b p st1)
           as [E2 | [_ (x & _ & [[_ Hb] | [_ Hb]])]]; [exact E2 | |];
           rewrite E in Hb; discriminate. }
       assert (E3 : st3 = st2).
       { destruct (bollingerAnalysis_fires bb p st2)
           as [E3 | [_ (x & _ & [[_ Hb] | [_ Hb]])]]; [exact E3 | |];
           rewrite E2, E in Hb; discriminate. }
       rewrite E3, E2, E. reflexivity. }
  all: right; split;
    [ rewrite Hs3, Hs2, E; discriminate
    | destruct H2 as [-> | (_ & C2 & L2)];
      destruct H3 as [-> | (_ & C3 & L3)]; lia ].
Qed.

(** X22: the values the confidence takes.  The confidence of a signal is 0,
    25, 40, 55 or 70, so the cap of 95 never cuts anything off; it is 0
    exactly for HOLD and NO_DATA; a HOLD signal has no reason, any other
    signal with reasons has between one and three. *)
Theorem confidence_values (cache : Cache.t) :
  let s := generateSignal cache in
  In (Signal.confidence s) [0; 25; 40; 55; 70]%Z
  /\ (Signal.confidence s = 0%Z
      <-> Signal.signal s = "HOLD"%string \/ Signal.signal s = "NO_DATA"%string)
  /\ (forall l, Signal.reasons s = Some l ->
        (length l <= 3)%nat /\ (l = [] <-> Signal.signal s = "HOLD"%string)).
Proof.
  cbv zeta.
  destruct (generateSignal_cases cache) as [H | (r & Hr & Hnz & Hp)].
  - rewrite H. simpl. split; [auto|]. split; [tauto|]. intros l Hl. discriminate.
  - rewrite (generateSignal_run cache r Hr Hnz Hp).
    cbn [Signal.confidence Signal.signal Signal.reasons].
    destruct (rule_chain_cases r
                (close (at_index (Cache.prices cache)
                                 (length (Cache.prices cache) - 1)))
                (sma20 (Cache.indicators cache)) (sma50 (Cache.indicators cache))
                (bollinger (Cache.indicators cache)))
      as [E | (Hne & Hc)]; cbv zeta in *.
    + rewrite E. simpl. split; [auto|]. split; [tauto|].
      intros l Hl. injection Hl as <-. simpl. split; [lia | tauto].
    + set (st := bollingerAnalysis _ _ _) in *.
      assert (Hnd : Acc.signal st <> "NO_DATA"%string).
      { unfold st. rewrite bollingerAnalysis_signal, movingAverageAnalysis_signal.
        destruct (rsiAnalysis_cases r)
          as [(_ & E & _) | [(_ & E & _) | [(_ & E) | [(_ & E & _) | (_ & E & _)]]]];
          rewrite E; simpl; discriminate. }
      split; [|split].
      * destruct Hc as [[C _] | [[C _] | [[C _] | [C _]]]]; rewrite C; simpl; auto 10.
      * destruct Hc as [[C _] | [[C _] | [[C _] | [C _]]]]; rewrite C; simpl;
          split; intros H; try discriminate; destruct H; contradiction.
      * intros l Hl. injection Hl as <-. split.
        -- destruct Hc as [[_ L] | [[_ L] | [[_ L] | [_ L]]]]; lia.
        -- split; intros H; [|contradiction].
           rewrite H in Hc. simpl in Hc.
           destruct Hc as [[_ L] | [[_ L] | [[_ L] | [_ L]]]]; lia.
Qed.

(** ** Signals from caches the program can hold *)

Lemma refreshed_bands_centred (data : list Candle) :
  centred {| sma20 := TechnicalAnalysis.calculateSMA data 20;
             sma50 := TechnicalAnalysis.calculateSMA data 50;
             ema12 := TechnicalAnalysis.calculateEMA data 12;
             rsi := TechnicalAnalysis.calculateRSI data 14;
             bollinger := TechnicalAnalysis.calculateBollingerBands data 20 2 |}.
Proof.
  intros b Hb. cbn [bollinger sma20] in *.
  destruct (calculateBollingerBands_inv data 20 2 b Hb)
    as (sd & Hsd & _ & Hsma & Hu & Hl & _).
  split; [exact Hsma | lra].
Qed.

Lemma reachable_centred (cache : Cache.t) :
  reachable cache -> centred (Cache.indicators cache).
Proof.
  induction 1 as [|now data cache Hreach IH].
  - intros b Hb. discriminate.
  - destruct (Nat.lt_ge_cases (length data) 20) as [H | H].
    + rewrite (fetchGoldData_short now data cache H). exact IH.
    + rewrite (fetchGoldData_long now data cache H). cbv zeta.
      cbn [Cache.indicators]. apply refreshed_bands_centred.
Qed.

Lemma reachable_patterns (cache : Cache.t) :
  reachable cache -> (length (Cache.patterns cache) <= 2)%nat.
Proof.
  induction 1 as [|now data cache Hreach IH].
  - simpl. lia.
  - destruct (Nat.lt_ge_cases (length data) 20) as [H | H].
    + rewrite (fetchGoldData_short now data cache H). exact IH.
    + rewrite (fetchGoldData_long now data cache H). cbv zeta.
      cbn [Cache.patterns].
      destruct (detectPatterns_shape_aux (slice_last 100 data))
        as (tops & bottoms & E & Ht & Hb).
      rewrite E, length_app.
      destruct Ht as [-> | [x ->]]; destruct Hb as [-> | [y ->]]; simpl; lia.
Qed.

Lemma labels_one_direction (r : R) :
  let st := rsiAnalysis r (Acc.mk "HOLD" 0 []) in
  (Acc.confidence st <= 40)%Z
  /\ ~ (includes "BUY" (Acc.signal st) = true
        /\ includes "SELL" (Acc.signal st) = true).
Proof.
  cbv zeta.
  destruct (rsiAnalysis_cases r)
    as [(_ & E & C & _) | [(_ & E & C & _) | [(_ & E)
        | [(_ & E & C & _) | (_ & E & C & _)]]]];
    try rewrite C; rewrite E; simpl; (split; [lia | intros [H1 H2]; discriminate]).
Qed.

Lemma chain_exclusive (ind : Indicators) (p r : R) :
  centred ind ->
  let st1 := rsiAnalysis r (Acc.mk "HOLD" 0 []) in
  let st2 := movingAverageAnalysis (sma20 ind) (sma50 ind) p st1 in
  let st3 := bollingerAnalysis (bollinger ind) p st2 in
  st2 = st1 \/ st3 = st2.
Proof.
  intros Hc st1 st2 st3.
  destruct (labels_one_direction r) as [_ Hdir]. fold st1 in Hdir.
  assert (Hs2 : Acc.signal st2 = Acc.signal st1)
    by apply movingAverageAnalysis_signal.
  pose proof (movingAverageAnalysis_fires (sma20 ind) (sma50 ind) p st1) as Hfma.
  fold st2 in Hfma.
  pose proof (bollingerAnalysis_fires (bollinger ind) p st2) as Hfbb.
  fold st3 in Hfbb.
  destruct Hfma as [E2 | [_ (x & Hx & Hma)]]; [left; exact E2|].
  destruct Hfbb as [E3 | [_ (bnd & Hbnd & Hbb)]]; [right; exact E3|].
  exfalso. destruct (Hc bnd Hbnd) as [Hmid Hord].
  rewrite Hx in Hmid. injection Hmid as ->.
  rewrite Hs2 in Hbb.
  destruct Hma as [[Hp1 Hbuy] | [Hp1 Hsell]];
    destruct Hbb as [[Hp2 Hbuy'] | [Hp2 Hsell']];
    try lra; apply Hdir; auto.
Qed.

(** X23: on every cache the program can hold (the initial one and any
    sequence of refreshes of it) the two confirmations exclude each other:
    the bands are centred on the short moving average, so the price cannot be
    beyond the average on one side and beyond the band on the other.  For
    every oscillator value, the moving-average step or the band step leaves
    the state as it is; the signal has a confidence of at most 55 and at most
    two reasons. *)
Theorem confirmations_exclude_each_other (cache : Cache.t) (r : R) :
  reachable cache ->
  let p := close (at_index (Cache.prices cache)
                           (length (Cache.prices cache) - 1)) in
  let st1 := rsiAnalysis r (Acc.mk "HOLD" 0 []) in
  let st2 := movingAverageAnalysis (sma20 (Cache.indicators cache))
               (sma50 (Cache.indicators cache)) p st1 in
  let st3 := bollingerAnalysis (bollinger (Cache.indicators cache)) p st2 in
  (st2 = st1 \/ st3 = st2)
  /\ (Signal.confidence (generateSignal cache) <= 55)%Z
  /\ (forall l, Signal.reasons (generateSignal cache) = Some l ->
        (length l <= 2)%nat).
Proof.
  intros Hreach. pose proof (reachable_centred cache Hreach) as Hc.
  cbv zeta. split; [apply chain_exclusive; exact Hc|].
  destruct (generateSignal_cases cache) as [H | (r' & Hr & Hnz & Hp)].
  - rewrite H. simpl. split; [lia | intros l Hl; discriminate].
  - rewrite (generateSignal_run cache r' Hr Hnz Hp).
    cbn [Signal.confidence Signal.reasons].
    set (p := close (at_index (Cache.prices cache)
                              (length (Cache.prices cache) - 1))).
    pose proof (chain_exclusive (Cache.indicators cache) p r' Hc) as Hex.
    cbv zeta in Hex.
    set (st1 := rsiAnalysis r' (Acc.mk "HOLD" 0 [])) in *.
    set (st2 := movingAverageAnalysis (sma20 (Cache.indicators cache))
                  (sma50 (Cache.indicators cache)) p st1) in *.
    set (st3 := bollingerAnalysis (bollinger (Cache.indicators cache)) p st2)
      in *.
    assert (H1 : (Acc.confidence st1 <= 40)%Z
                 /\ (length (Acc.reasons st1) <= 1)%nat).
    { destruct (rsiAnalysis_cases r')
        as [(_ & _ & C & L) | [(_ & _ & C & L) | [(_ & E)
            | [(_ & _ & C & L) | (_ & _ & C & L)]]]];
        fold st1 in C, L || fold st1 in E;
        try (rewrite C, L; split; lia).
      rewrite E. simpl. split; lia. }
    assert (H2 : st2 = st1 \/ confirmed_by st1 st2).
    { destruct (movingAverageAnalysis_fires (sma20 (Cache.indicators cache))
                  (sma50 (Cache.indicators cache)) p st1) as [E | [E _]]; auto. }
    assert (H3 : st3 = st2 \/ confirmed_by st2 st3).
    { destruct (bollingerAnalysis_fires (bollinger (Cache.indicators cache))
                  p st2) as [E | [E _]]; auto. }
    destruct H1 as [C1 L1].
    assert (Hfinal : (Acc.confidence st3 <= 55)%Z
                     /\ (length (Acc.reasons st3) <= 2)%nat).
    { destruct Hex as [E2 | E3].
      - rewrite E2 in *. destruct H3 as [-> | (_ & C3 & L3)]; split; lia.
      - rewrite E3. destruct H2 as [-> | (_ & C2 & L2)]; split; lia. }
    destruct Hfinal as [Cf Lf]. split; [lia|].
    intros l Hl. injection Hl as <-. exact Lf.
Qed.

Lemma rsi_sums_rebound : TechnicalAnalysis.rsi_sums rebound 14 = (14, 0).
Proof.
  unfold TechnicalAnalysis.rsi_sums. cbn [seq fold_left].
  unfold TechnicalAnalysis.rsi_step. simpl.
  repeat (settle; cbv iota beta).
  f_equal; lra.
Qed.

Lemma calculateRSI_rebound : TechnicalAnalysis.calculateRSI rebound 14 = Some 100.
Proof.
  rewrite calculateRSI_value by (simpl; lia).
  rewrite rsi_sums_rebound. cbv zeta. simpl fst. simpl snd.
  change (num 14) with 14.
  replace (is_zero (0 / 14)) with true
    by (symmetry; apply is_zero_true; lra).
  reflexivity.
Qed.

Lemma calculateSMA_rebound_20 :
  TechnicalAnalysis.calculateSMA rebound 20 = Some (6605 / 20).
Proof.
  unfold TechnicalAnalysis.calculateSMA.
  change (length rebound <? 20)%nat with false. cbv iota zeta.
  unfold sum_close. simpl. f_equal. change (num 20) with 20. lra.
Qed.

Lemma calculateSMA_rebound_50 :
  TechnicalAnalysis.calculateSMA rebound 50 = Some (36605 / 50).
Proof.
  unfold TechnicalAnalysis.calculateSMA.
  change (length rebound <? 50)%nat with false. cbv iota zeta.
  unfold sum_close. simpl. f_equal. change (num 50) with 50. lra.
Qed.

(** On [rebound] the moving-average confirmation fires (STRONG_SELL, price
    114 below the averages 330.25 and 732.1), the band confirmation does not,
    and the confidence is 40 + 15. *)
Lemma confirmations_exclude_each_other_witness :
  reachable (fetchGoldData 0 rebound marketDataCache)
  /\ Signal.confidence (generateSignal (fetchGoldData 0 rebound marketDataCache))
     = 55%Z.
Proof.
  set (cache := fetchGoldData 0 rebound marketDataCache).
  assert (Hreach : reachable cache)
    by (apply reachable_refresh, reachable_initial).
  split; [exact Hreach|].
  destruct (confirmations_exclude_each_other cache 100 Hreach)
    as (_ & Hle & _).
  assert (Hc : cache =
    {| Cache.prices := rebound;
       Cache.indicators :=
         {| sma20 := TechnicalAnalysis.calculateSMA rebound 20;
            sma50 := TechnicalAnalysis.calculateSMA rebound 50;
            ema12 := TechnicalAnalysis.calculateEMA rebound 12;
            rsi := TechnicalAnalysis.calculateRSI rebound 14;
            bollinger :=
              TechnicalAnalysis.calculateBollingerBands rebound 20 2 |};
       Cache.patterns := PatternRecognition.detectPatterns rebound;
       Cache.lastUpdate := Some 0;
       Cache.source := Some "Yahoo Finance"%string |}) by reflexivity.
  assert (H20 : sma20 (Cache.indicators cache) = Some (6605 / 20))
    by (rewrite Hc; exact calculateSMA_rebound_20).
  assert (H50 : sma50 (Cache.indicators cache) = Some (36605 / 50))
    by (rewrite Hc; exact calculateSMA_rebound_50).
  assert (Hrsi : rsi (Cache.indicators cache) = Some 100)
    by (rewrite Hc; exact calculateRSI_rebound).
  assert (Hp : Cache.prices cache = rebound) by (rewrite Hc; reflexivity).
  revert Hle.
  rewrite (generateSignal_run cache 100 Hrsi)
    by (rewrite ?Hp; (lra || discriminate)).
  cbn [Signal.confidence]. rewrite H20, H50, Hp.
  change (close (at_index rebound (length rebound - 1))) with 114.
  set (st2 := movingAverageAnalysis (Some (6605 / 20)) (Some (36605 / 50)) 114
                (rsiAnalysis 100 (Acc.mk "HOLD" 0 []))).
  assert (E2 : Acc.confidence st2 = 55%Z).
  { unfold st2, rsiAnalysis. settle.
    unfold movingAverageAnalysis, truthy. settle. reflexivity. }
  destruct (bollingerAnalysis_fires (bollinger (Cache.indicators cache)) 114 st2)
    as [-> | [(_ & C3 & _) _]]; lia.
Defined.

(** X24: on every cache the program can hold there are at most two patterns,
    so the signal reports all of them: taking the first three never drops a
    pattern. *)
Theorem reachable_patterns_all_reported (cache : Cache.t) :
  reachable cache ->
  (length (Cache.patterns cache) <= 2)%nat
  /\ (Signal.patterns (generateSignal cache) = None
      \/ Signal.patterns (generateSignal cache) = Some (Cache.patterns cache)).
Proof.
  intros Hreach. pose proof (reachable_patterns cache Hreach) as Hl.
  split; [exact Hl|].
  destruct (generateSignal_cases cache) as [H | (r & Hr & Hnz & Hp)].
  - left. rewrite H. reflexivity.
  - right. rewrite (generateSignal_run cache r Hr Hnz Hp). cbn [Signal.patterns].
    f_equal. apply firstn_all2. lia.
Qed.

Lemma reachable_patterns_all_reported_witness :
  reachable (fetchGoldData 0 twoPeaks marketDataCache)
  /\ (length (Cache.patterns (fetchGoldData 0 twoPeaks marketDataCache)) <= 2)%nat.
Proof.
  assert (H : reachable (fetchGoldData 0 twoPeaks marketDataCache))
    by (apply reachable_refresh, reachable_initial).
  split; [exact H|].
  exact (proj1 (reachable_patterns_all_reported _ H)).
Defined.

(** ** One more candle *)

(** X25: the exponential moving average is updated by each new candle: when
    a candle is appended to a sequence of at least [period] candles, the new
    average is close * k + previous * (1 - k) with k = 2 / (period + 1). *)
Theorem ema_append (data : list Candle) (period : nat) (c : Candle)
    (previous : R) :
  (1 <= period)%nat -> (period <= length data)%nat ->
  TechnicalAnalysis.calculateEMA data period = Some previous ->
  TechnicalAnalysis.calculateEMA (data ++ [c]) period =
    Some (close c * (2 / (num period + 1))
          + previous * (1 - 2 / (num period + 1))).
Proof.
  intros _ Hlen. unfold TechnicalAnalysis.calculateEMA.
  replace (length data <? period)%nat with false
    by (symmetry; apply Nat.ltb_ge; exact Hlen).
  replace (length (data ++ [c]) <? period)%nat with false
    by (symmetry; apply Nat.ltb_ge; rewrite length_app; simpl; lia).
  cbv zeta. intros H. injection H as <-.
  rewrite firstn_app, skipn_app.
  replace (period - length data)%nat with 0%nat by lia.
  cbn [firstn skipn]. rewrite app_nil_r, fold_left_app. reflexivity.
Qed.

Lemma ema_append_witness :
  (1 <= 12)%nat /\ (12 <= length (flat 1900 20))%nat
  /\ exists previous,
       TechnicalAnalysis.calculateEMA (flat 1900 20) 12 = Some previous
       /\ TechnicalAnalysis.calculateEMA (flat 1900 20 ++ [bar 1910]) 12 =
            Some (close (bar 1910) * (2 / (num 12 + 1))
                  + previous * (1 - 2 / (num 12 + 1))).
Proof.
  assert (Hlen : (12 <= length (flat 1900 20))%nat) by (simpl; lia).
  split; [lia|]. split; [exact Hlen|].
  destruct (TechnicalAnalysis.calculateEMA (flat 1900 20) 12) as [previous|] eqn:E.
  - exists previous. split; [reflexivity|].
    exact (ema_append (flat 1900 20) 12 (bar 1910) previous ltac:(lia) Hlen E).
  - exfalso. unfold TechnicalAnalysis.calculateEMA in E.
    change (length (flat 1900 20) <? 12)%nat with false in E. discriminate.
Defined.

(** ** A falling window ends in NO_DATA *)

(** X26: after a refresh with at least 20 candles, when none of the last 14
    close-to-close changes of the cached prices is positive and one of them
    is negative, the cached oscillator is the number 0 and the signal is
    NO_DATA with confidence 0: the test [!rsi] takes the 0 for a missing
    value. *)
Theorem no_data_after_falling_window (now : R) (data : list Candle)
    (cache : Cache.t) :
  (20 <= length data)%nat ->
  let prices := Cache.prices (fetchGoldData now data cache) in
  (forall x, In x (changes prices 14) -> x <= 0) ->
  (exists x, In x (changes prices 14) /\ x < 0) ->
  rsi (Cache.indicators (fetchGoldData now data cache)) = Some 0
  /\ generateSignal (fetchGoldData now data cache) = noData.
Proof.
  intros H. cbv zeta. rewrite fetchGoldData_prices.
  set (prices := slice_last 100 data). intros Hup Hdown.
  assert (Hl : (20 <= length prices)%nat).
  { unfold prices. rewrite length_slice_last by lia. lia. }
  assert (Hrsi : rsi (Cache.indicators (fetchGoldData now data cache)) = Some 0).
  { rewrite (fetchGoldData_long now data cache H). cbv zeta.
    cbn [Cache.indicators rsi]. fold prices.
    apply (calculateRSI_zero_iff prices 14); [lia | lia |]. split.
    - apply total_upward_zero. exact Hup.
    - pose proof (total_downward_pos _ Hdown). lra. }
  split; [exact Hrsi|]. apply generateSignal_zero_rsi. exact Hrsi.
Qed.

Lemma no_data_after_falling_window_witness :
  (20 <= length falling)%nat
  /\ (forall x, In x (changes falling 14) -> x <= 0)
  /\ (exists x, In x (changes falling 14) /\ x < 0)
  /\ generateSignal (fetchGoldData 0 falling marketDataCache) = noData.
Proof.
  destruct falling_no_gain as [Hup Hdown].
  assert (H : (20 <= length falling)%nat) by (simpl; lia).
  split; [exact H|]. split; [exact Hup|]. split; [exact Hdown|].
  exact (proj2 (no_data_after_falling_window 0 falling marketDataCache H
                  Hup Hdown)).
Defined.
